(** * WorkoutAgent: the metabolic calculator, the /bmr endpoint, the profile
      contract and the report orchestration of [workout_agent.py]

    Python [float]s are IEEE-754 binary64 values: they are modelled by Rocq's
    primitive floats, whose operations are the same correctly rounded
    binary64 operations.  Python [int]s are unbounded: they are modelled by
    [Z].  Python [str] values are modelled by [string].

    Two libraries do work the source only configures.  pydantic checks the
    [Field] bounds the models declare; the checks are modelled from those
    declarations.  pydantic-ai runs the agent; the run is modelled from the
    settings the source passes ([result_type], [result_retries]) as a loop
    over the answers of the generation backend. *)

From Stdlib Require Import ZArith List String Ascii Bool Lia DecimalString.
From Stdlib Require Import Floats.
From Stdlib Require Import Permutation.
Import ListNotations.

Set Warnings "-inexact-float".

Local Open Scope string_scope.
Local Open Scope Z_scope.

(** ** Exceptions and fallible results *)

(** The exceptions the modelled code can raise; [str(e)] is [exn_message]. *)
Inductive exn : Type :=
| KeyError (key : string)
| OverflowError (msg : string)
| ValidationError (msg : string)
| UnexpectedModelBehavior (msg : string)
| TransportFailure (msg : string).

Definition exn_message (e : exn) : string :=
  match e with
  | KeyError k => k
  | OverflowError m => m
  | ValidationError m => m
  | UnexpectedModelBehavior m => m
  | TransportFailure m => m
  end.

Inductive result (A : Type) : Type :=
| Ok (a : A)
| Raise (e : exn).
Arguments Ok {A} a.
Arguments Raise {A} e.

Definition bind {A B : Type} (r : result A) (k : A -> result B) : result B :=
  match r with
  | Ok a => k a
  | Raise e => Raise e
  end.

Notation "'let*' x ':=' r 'in' k" := (bind r (fun x => k))
  (at level 10, x name, r at level 100, k at level 200).

Definition is_ok {A : Type} (r : result A) : bool :=
  match r with Ok _ => true | Raise _ => false end.

(** ** Python numerics *)

Module Py.

(** [float(n)] for an [int]: the nearest binary64 value (ties to even);
    an [int] too large for binary64 raises [OverflowError]. *)
Definition nearest_of_int (n : Z) : spec_float :=
  binary_normalize prec emax n 0 false.

Definition float_of_int (n : Z) : result float :=
  match nearest_of_int n with
  | S754_infinity _ => Raise (OverflowError "int too large to convert to float")
  | sf => Ok (SF2Prim sf)
  end.

(** Mixed arithmetic converts the [int] operand first. *)
Definition int_mul_float (n : Z) (x : float) : result float :=
  let* fn := float_of_int n in Ok (fn * x)%float.

Definition float_add_int (x : float) (n : Z) : result float :=
  let* fn := float_of_int n in Ok (x + fn)%float.

Definition float_sub_int (x : float) (n : Z) : result float :=
  let* fn := float_of_int n in Ok (x - fn)%float.

(** [num / den] rounded to the nearest integer, ties to the even one
    ([den > 0]). *)
Definition round_half_even (num den : Z) : Z :=
  let q := num / den in
  match 2 * (num mod den) ?= den with
  | Lt => q
  | Gt => q + 1
  | Eq => if Z.even q then q else q + 1
  end.

(** The binary64 value nearest to [(-1)^neg * num / den] ([num, den > 0]):
    the quotient is taken with at least 64 significant bits and one sticky
    bit, then rounded once, ties to even. *)
Definition nearest_float (neg : bool) (num den : Z) : spec_float :=
  let k := Z.max 0 (64 + Z.log2 den - Z.log2 num) in
  let scaled := num * 2 ^ k in
  let m := 2 * (scaled / den) + (if scaled mod den =? 0 then 0 else 1) in
  binary_normalize prec emax (if neg then - m else m) (- k - 1) false.

(** [round(x, ndigits)] for a float [x]: NaN and the infinities round to
    themselves; a finite [x = (-1)^s * m * 2^e] is rounded, from its exact
    value, to the nearest multiple of [10^-ndigits] (ties to even), and the
    result is the binary64 value nearest to that decimal, with the sign of
    [x]; a result too large for binary64 raises [OverflowError]. *)
Definition round (x : float) (ndigits : Z) : result float :=
  match Prim2SF x with
  | S754_finite s m e =>
      let num := Z.pos m * 2 ^ Z.max e 0 * 10 ^ Z.max ndigits 0 in
      let den := 2 ^ Z.max (- e) 0 * 10 ^ Z.max (- ndigits) 0 in
      let n := round_half_even num den in
      if n =? 0 then Ok (SF2Prim (S754_zero s))
      else
        match nearest_float s (n * 10 ^ Z.max (- ndigits) 0)
                              (10 ^ Z.max ndigits 0) with
        | S754_infinity _ =>
            Raise (OverflowError "rounded value too large to represent")
        | sf => Ok (SF2Prim sf)
        end
  | _ => Ok x
  end.

(** [c.lower()] on one character, for the ASCII letters. *)
Definition lower_ascii (c : ascii) : ascii :=
  let n := nat_of_ascii c in
  if (Nat.leb 65 n && Nat.leb n 90)%bool then ascii_of_nat (n + 32) else c.

(** [s.lower()].  Characters outside A-Z are left as they are (no code
    point outside ASCII lowercases to one of the letters of ["male"], the
    only string the result is compared with). *)
Fixpoint lower (s : string) : string :=
  match s with
  | EmptyString => EmptyString
  | String c s' => String (lower_ascii c) (lower s')
  end.

End Py.

(** ** Enumerations and models *)

Inductive ActivityLevel : Type :=
| SEDENTARY
| LIGHTLY_ACTIVE
| MODERATELY_ACTIVE
| VERY_ACTIVE
| EXTREMELY_ACTIVE.

(** [ActivityLevel.X.value] *)
Definition ActivityLevel_value (a : ActivityLevel) : string :=
  match a with
  | SEDENTARY => "sedentary"
  | LIGHTLY_ACTIVE => "lightly_active"
  | MODERATELY_ACTIVE => "moderately_active"
  | VERY_ACTIVE => "very_active"
  | EXTREMELY_ACTIVE => "extremely_active"
  end.

Definition ActivityLevel_eqb (a b : ActivityLevel) : bool :=
  match a, b with
  | SEDENTARY, SEDENTARY
  | LIGHTLY_ACTIVE, LIGHTLY_ACTIVE
  | MODERATELY_ACTIVE, MODERATELY_ACTIVE
  | VERY_ACTIVE, VERY_ACTIVE
  | EXTREMELY_ACTIVE, EXTREMELY_ACTIVE => true
  | _, _ => false
  end.

Record FitnessProfile : Type := mkFitnessProfile {
  age : Z;
  weight : float;
  height : float;
  gender : string;
  activity_level : ActivityLevel;
  fitness_goals : option string
}.

(** ** The metabolic calculator *)

(** A dict literal, in insertion order; [d[k]] raises [KeyError] on a
    missing key. *)
Definition dict (V : Type) : Type := list (ActivityLevel * V).

Fixpoint dict_get {V : Type} (d : dict V) (k : ActivityLevel) : result V :=
  match d with
  | [] => Raise (KeyError (ActivityLevel_value k))
  | (k', v) :: d' => if ActivityLevel_eqb k' k then Ok v else dict_get d' k
  end.

Definition activity_multipliers : dict float :=
  [ (SEDENTARY, 1.2%float);
    (LIGHTLY_ACTIVE, 1.375%float);
    (MODERATELY_ACTIVE, 1.55%float);
    (VERY_ACTIVE, 1.725%float);
    (EXTREMELY_ACTIVE, 1.9%float) ].

(** The [if]/[else] of [calculate_bmr] (the first value of its local
    [bmr]), with Python's evaluation order:
    [((10 * weight + 6.25 * height) - 5 * age) + 5] (or [- 161]). *)
Definition base_bmr (profile : FitnessProfile) : result float :=
  let* w10 := Py.int_mul_float 10 (weight profile) in
  let h625 := (6.25 * height profile)%float in
  let* t := Py.float_sub_int (w10 + h625)%float (5 * age profile) in
  if String.eqb (Py.lower (gender profile)) "male"
  then Py.float_add_int t 5
  else Py.float_sub_int t 161.

Definition calculate_bmr (profile : FitnessProfile) : result float :=
  let* bmr := base_bmr profile in
  let* m := dict_get activity_multipliers (activity_level profile) in
  Ok (bmr * m)%float.

(** ** The /bmr endpoint *)

Record HTTPException : Type := mkHTTPException {
  status_code : Z;
  detail : string
}.

(** The dict returned by [calculate_bmr_endpoint], one field per key. *)
Module Bmr.
Record response : Type := mkResponse {
  bmr : float;
  daily_calories : float;
  weight_loss_calories : float;
  weight_gain_calories : float;
  activity_level : string
}.
End Bmr.

(** The operands of the two [round(_, 0)] calls for the loss and gain
    figures. *)
Definition weight_loss_raw (bmr : float) : result float :=
  Py.float_sub_int bmr 500.

Definition weight_gain_raw (bmr : float) : result float :=
  Py.float_add_int bmr 500.

(** The body of the [try] block. *)
Definition bmr_response (fitness_profile : FitnessProfile) : result Bmr.response :=
  let* bmr := calculate_bmr fitness_profile in
  let* r_bmr := Py.round bmr 2 in
  let* r_daily := Py.round bmr 0 in
  let* loss := weight_loss_raw bmr in
  let* r_loss := Py.round loss 0 in
  let* gain := weight_gain_raw bmr in
  let* r_gain := Py.round gain 0 in
  Ok (Bmr.mkResponse r_bmr r_daily r_loss r_gain
        (ActivityLevel_value (activity_level fitness_profile))).

(** [calculate_bmr_endpoint]: any exception of the body becomes an
    [HTTPException] with status 500. *)
Definition calculate_bmr_endpoint (fitness_profile : FitnessProfile)
  : Bmr.response + HTTPException :=
  match bmr_response fitness_profile with
  | Ok r => inl r
  | Raise e =>
      inr (mkHTTPException 500 ("Error calculating BMR: " ++ exn_message e)%string)
  end.

(** ** Profile construction *)

Definition check (ok : bool) (msg : string) : list string :=
  if ok then [] else [msg].

(** The [Field] bounds of [FitnessProfile]: [ge=13, le=120] on [age],
    [gt=0] on [weight] and on [height].  Every violated bound is reported
    (the layout of the message is not modelled).  [gt=0] is the binary64
    comparison [0 < x]; NaN, which compares false with every number, does
    not satisfy it. *)
Definition FitnessProfile_errors (age : Z) (weight height : float)
  : list string :=
  (check (13 <=? age) "age: Input should be greater than or equal to 13" ++
   check (age <=? 120) "age: Input should be less than or equal to 120" ++
   check (0 <? weight)%float "weight: Input should be greater than 0" ++
   check (0 <? height)%float "height: Input should be greater than 0")%list.

(** [FitnessProfile(age=..., weight=..., ...)] on arguments of the declared
    types. *)
Definition FitnessProfile_new (age : Z) (weight height : float)
    (gender : string) (activity_level : ActivityLevel)
    (fitness_goals : option string) : result FitnessProfile :=
  match FitnessProfile_errors age weight height with
  | [] => Ok (mkFitnessProfile age weight height gender activity_level
                fitness_goals)
  | errs => Raise (ValidationError (String.concat "; " errs))
  end.

(** The bounds, as a predicate on a profile. *)
Definition valid_profile (p : FitnessProfile) : bool :=
  (13 <=? age p) && (age p <=? 120) &&
  (0 <? weight p)%float && (0 <? height p)%float.

Definition male_example : FitnessProfile :=
  mkFitnessProfile 30 70%float 175%float "male" MODERATELY_ACTIVE None.

Definition female_example : FitnessProfile :=
  mkFitnessProfile 25 60%float 165%float "female" LIGHTLY_ACTIVE None.

(** ** The report model *)

Module Exercise.
Record t : Type := mk {
  name : string;
  sets : Z;
  reps : Z;
  rest_time : Z;
  instructions : option string
}.

(** [sets: ge=1], [reps: ge=1], [rest_time: ge=0]. *)
Definition valid (e : t) : bool :=
  (1 <=? sets e) && (1 <=? reps e) && (0 <=? rest_time e).
End Exercise.

Module Meal.
Record t : Type := mk {
  name : string;
  calories : Z;
  protein : float;
  carbs : float;
  fats : float;
  timing : string;
  ingredients : option (list string)
}.

(** [calories: ge=0], [protein: ge=0], [carbs: ge=0], [fats: ge=0]. *)
Definition valid (m : t) : bool :=
  (0 <=? calories m) &&
  (0 <=? protein m)%float && (0 <=? carbs m)%float && (0 <=? fats m)%float.
End Meal.

(** [FitnessReportResult]: the five fields are required ([...]); none of
    them carries a bound or a length constraint of its own. *)
Record FitnessReportResult : Type := mkFitnessReportResult {
  workout_plan : list Exercise.t;
  nutrition_plan : list Meal.t;
  daily_calories : Z;
  motivational_quote : string;
  recommendations : list string
}.

(** Schema conformance of a value that has the shape of the model: the
    bounds of the nested models on every element. *)
Definition FitnessReportResult_valid (r : FitnessReportResult) : bool :=
  forallb Exercise.valid (workout_plan r) &&
  forallb Meal.valid (nutrition_plan r).

(** What the generation backend hands back as its final answer: either
    data that does not have the shape of the model (a missing field, a value
    of the wrong type), with the validator's diagnostic, or data of that
    shape, whose bounds are still to be checked. *)
Inductive raw_output : Type :=
| Malformed (diagnostic : string)
| Shaped (r : FitnessReportResult).

(** Validation against [result_type=FitnessReportResult]. *)
Definition validate (raw : raw_output) : FitnessReportResult + string :=
  match raw with
  | Malformed d => inr d
  | Shaped r =>
      if FitnessReportResult_valid r then inl r
      else inr "Input should satisfy the bounds of Exercise and Meal"
  end.

(** ** The agents and the orchestrator *)

(** The settings of a pydantic-ai [Agent(...)] the orchestration depends
    on.  [result_retries] is the number of retries allowed for result
    validation. *)
Record Agent : Type := mkAgent {
  model : string;
  result_retries : nat
}.

(** [get_fitness_agent()]: ['openai:gpt-4'], [result_retries=3]. *)
Definition get_fitness_agent : Agent := mkAgent "openai:gpt-4" 3.

(** One answer of the generation backend to a request of the fitness
    agent: the request fails (backend unreachable, timed out, request
    rejected), the backend calls the [get_motivation] tool, or it gives its
    final answer. *)
Inductive model_response : Type :=
| RequestFailed (detail : string)
| CallGetMotivation
| FinalResult (raw : raw_output).

(** The outcome of [motivational_agent.run(prompt)] inside the tool. *)
Inductive motivation_response : Type :=
| MotivationFailed (detail : string)
| Quotes (quotes : list string).

(** The generation service as seen by one orchestration: the answers it
    gives, in order, to the requests made for a profile.  A run that needs
    more answers than the list holds is still awaiting the backend. *)
Record backend : Type := mkBackend {
  generate : FitnessProfile -> list model_response;
  motivate : FitnessProfile -> list motivation_response
}.

Inductive outcome (E A : Type) : Type :=
| Returned (a : A)
| Raised (e : E)
| Awaiting.
Arguments Returned {E A} a.
Arguments Raised {E A} e.
Arguments Awaiting {E A}.

Definition exceeded_message : string :=
  "Exceeded maximum retries (3) for result validation".

(** [agent.run(prompt, deps=profile)], from the answer [script] on: every
    answer consumed is one request ([requests] counts them).  A failed
    request raises; a tool call runs [get_motivation] and asks again; a
    final answer is validated, and an invalid one increments the retry
    counter, which raises once it exceeds [result_retries] and asks again
    otherwise. *)
Fixpoint run_from (agent : Agent) (script : list model_response)
    (motivation : list motivation_response) (retry requests : nat)
  : outcome exn FitnessReportResult * nat :=
  match script with
  | [] => (Awaiting, requests)
  | RequestFailed d :: _ => (Raised (TransportFailure d), S requests)
  | CallGetMotivation :: script' =>
      match motivation with
      | [] => (Awaiting, S requests)
      | MotivationFailed d :: _ => (Raised (TransportFailure d), S requests)
      | Quotes _ :: motivation' =>
          run_from agent script' motivation' retry (S requests)
      end
  | FinalResult raw :: script' =>
      match validate raw with
      | inl r => (Returned r, S requests)
      | inr _ =>
          if Nat.ltb (result_retries agent) (S retry)
          then (Raised (UnexpectedModelBehavior exceeded_message), S requests)
          else run_from agent script' motivation (S retry) (S requests)
      end
  end.

Definition run (agent : Agent) (b : backend) (deps : FitnessProfile)
  : outcome exn FitnessReportResult * nat :=
  run_from agent (generate b deps) (motivate b deps) 0 0.

(** [analyze_profile]: [result.data] on success, and any exception turned
    into an [HTTPException] with status 500.  The second component is the
    number of generation requests made. *)
Definition analyze_profile (b : backend) (profile : FitnessProfile)
  : outcome HTTPException FitnessReportResult * nat :=
  match run get_fitness_agent b profile with
  | (Returned r, n) => (Returned r, n)
  | (Raised e, n) =>
      (Raised (mkHTTPException 500
                 ("Error analyzing profile: " ++ exn_message e)%string), n)
  | (Awaiting, n) => (Awaiting, n)
  end.

(** [str(e)] for an [HTTPException]: the status code, then the detail. *)
Definition HTTPException_str (e : HTTPException) : string :=
  (NilZero.string_of_int (Z.to_int (status_code e)) ++ ": " ++ detail e)%string.

(** The handler of [POST /analyze]. *)
Definition analyze_fitness (b : backend) (fitness_profile : FitnessProfile)
  : outcome HTTPException FitnessReportResult * nat :=
  match analyze_profile b fitness_profile with
  | (Raised e, n) => (Raised (mkHTTPException 500 (HTTPException_str e)), n)
  | other => other
  end.

(** [POST /analyze] on a body whose fields have the declared types: the
    profile is built first, and the handler runs only on a profile that was
    built; a body that fails validation is answered with status 422. *)
Definition post_analyze (b : backend) (age : Z) (weight height : float)
    (gender : string) (activity_level : ActivityLevel)
    (fitness_goals : option string)
  : outcome HTTPException FitnessReportResult * nat :=
  match FitnessProfile_new age weight height gender activity_level
          fitness_goals with
  | Raise e => (Raised (mkHTTPException 422 (exn_message e)), 0%nat)
  | Ok profile => analyze_fitness b profile
  end.

(** ** The calculator as the specification words it *)

(** The activity multiplier, keyed by [ActivityLevel]. *)
Definition activity_multiplier (a : ActivityLevel) : float :=
  match a with
  | SEDENTARY => 1.2
  | LIGHTLY_ACTIVE => 1.375
  | MODERATELY_ACTIVE => 1.55
  | VERY_ACTIVE => 1.725
  | EXTREMELY_ACTIVE => 1.9
  end%float.

(** The character is the given letter, in lower or in upper case. *)
Definition letter (lower upper c : ascii) : bool :=
  Ascii.eqb c lower || Ascii.eqb c upper.

(** Case-insensitive match of the gender on ["male"]: four characters, an m,
    an a, an l and an e, each in either case. *)
Definition is_male (g : string) : bool :=
  match g with
  | String c1 (String c2 (String c3 (String c4 EmptyString))) =>
      letter "m" "M" c1 && letter "a" "A" c2 &&
      letter "l" "L" c3 && letter "e" "E" c4
  | _ => false
  end.

(** The Mifflin-St Jeor base: [10 weight + 6.25 height - 5 age + 5] for a
    male profile, [10 weight + 6.25 height - 5 age - 161] otherwise, in
    binary64 arithmetic. *)
Definition mifflin_st_jeor_base (p : FitnessProfile) : float :=
  let age5 := SF2Prim (Py.nearest_of_int (5 * age p)) in
  if is_male (gender p)
  then (10 * weight p + 6.25 * height p - age5 + 5)%float
  else (10 * weight p + 6.25 * height p - age5 - 161)%float.

Definition mifflin_st_jeor (p : FitnessProfile) : float :=
  (mifflin_st_jeor_base p * activity_multiplier (activity_level p))%float.

(** ** Strings that differ only in letter case *)

Definition is_upper (c : ascii) : bool :=
  let n := nat_of_ascii c in (Nat.leb 65 n && Nat.leb n 90)%bool.

(** Two characters are the same, or one is an upper-case ASCII letter and
    the other is its lower-case form. *)
Definition same_letter (a b : ascii) : bool :=
  Ascii.eqb a b ||
  (is_upper a && Ascii.eqb b (Py.lower_ascii a)) ||
  (is_upper b && Ascii.eqb a (Py.lower_ascii b)).

Fixpoint differ_only_in_case (s t : string) : bool :=
  match s, t with
  | EmptyString, EmptyString => true
  | String a s', String b t' => same_letter a b && differ_only_in_case s' t'
  | _, _ => false
  end.

(** [profile.model_copy(update={'gender': g})]: the same profile with
    another gender string. *)
Definition with_gender (p : FitnessProfile) (g : string) : FitnessProfile :=
  mkFitnessProfile (age p) (weight p) (height p) g (activity_level p)
    (fitness_goals p).

(** An answer that fails validation. *)
Definition schema_invalid (raw : raw_output) : bool :=
  match validate raw with
  | inl _ => false
  | inr _ => true
  end.

(** ** Sample inputs *)

(** A valid profile whose activity-adjusted BMR is below 500. *)
Definition low_bmr_example : FitnessProfile :=
  mkFitnessProfile 80 30%float 100%float "female" SEDENTARY None.

(** Valid profiles on which [bmr + 500] and [bmr - 500] are not 1000
    apart. *)
Definition huge_weight_example : FitnessProfile :=
  mkFitnessProfile 30 1e20%float 175%float "male" SEDENTARY None.

Definition young_female_example : FitnessProfile :=
  mkFitnessProfile 13 70%float 175%float "female" SEDENTARY None.

(** A backend that never answers. *)
Definition no_backend : backend := mkBackend (fun _ => []) (fun _ => []).

(** A backend that gives the same answers whatever the profile, and whose
    motivation step is never reached. *)
Definition answers (script : list model_response) : backend :=
  mkBackend (fun _ => script) (fun _ => []).

Definition sample_report : FitnessReportResult :=
  mkFitnessReportResult
    [Exercise.mk "Squat" 3 10 60 None]
    [Meal.mk "Oatmeal" 350 12 60 6 "breakfast" None]
    2500 "Keep going" ["Sleep eight hours"].

(** An answer of the right shape with an exercise of zero sets. *)
Definition zero_sets_output : raw_output :=
  Shaped (mkFitnessReportResult [Exercise.mk "Squat" 0 10 60 None] []
            2500 "Keep going" ["Sleep eight hours"]).

(** ** More of Python's [str] *)

Module PyStr.

(** [c.isspace()] for a code point below 256: tab to carriage return, the
    four separators 28-31, the space, NEL (133) and the no-break space
    (160). *)
Definition isspace (c : ascii) : bool :=
  let n := nat_of_ascii c in
  (Nat.leb 9 n && Nat.leb n 13) || (Nat.leb 28 n && Nat.leb n 32) ||
  Nat.eqb n 133 || Nat.eqb n 160.

(** [s.lstrip()], [s.rstrip()] and [s.strip()] without argument. *)
Fixpoint lstrip (s : string) : string :=
  match s with
  | EmptyString => EmptyString
  | String c s' => if isspace c then lstrip s' else s
  end.

Fixpoint rstrip (s : string) : string :=
  match s with
  | EmptyString => EmptyString
  | String c s' =>
      match rstrip s' with
      | EmptyString => if isspace c then EmptyString else String c EmptyString
      | r => String c r
      end
  end.

Definition strip (s : string) : string := rstrip (lstrip s).

(** The truth value of a string: it is not empty. *)
Definition truthy (s : string) : bool :=
  match s with
  | EmptyString => false
  | String _ _ => true
  end.

(** [needle in s]: [needle] occurs in [s] as a substring. *)
Fixpoint contains (needle s : string) : bool :=
  String.prefix needle s ||
  match s with
  | EmptyString => false
  | String _ s' => contains needle s'
  end.

(** A str as the list of its code points.  The characters of a [string]
    are the code points below 256; titling can lead out of that range, so
    its result is a [text]. *)
Definition text : Type := list N.

Definition code_points (s : string) : text :=
  map N_of_ascii (list_ascii_of_string s).

Definition text_eqb (a b : text) : bool :=
  if list_eq_dec N.eq_dec a b then true else false.

Definition between (lo hi n : N) : bool := ((lo <=? n) && (n <=? hi))%N.

(** The cased code points below 256: the ASCII letters, the ordinal
    indicators (170, 186), the micro sign (181) and the Latin-1 letters
    (192-214, 216-246, 248-255; 215 and 247 are the signs of multiplication
    and division). *)
Definition is_cased (c : ascii) : bool :=
  let n := N_of_ascii c in
  between 65 90 n || between 97 122 n ||
  (n =? 170)%N || (n =? 181)%N || (n =? 186)%N ||
  between 192 214 n || between 216 246 n || between 248 255 n.

(** The full lowercase mapping: the upper-case letters (A-Z, 192-214,
    216-222) move up by 32. *)
Definition lower_full (c : ascii) : text :=
  let n := N_of_ascii c in
  if between 65 90 n || between 192 214 n || between 216 222 n
  then [(n + 32)%N] else [n].

(** The full titlecase mapping: the lower-case letters (a-z, 224-246,
    248-254) move down by 32; the micro sign becomes the Greek capital mu
    (924), the sharp s becomes "Ss", and y with diaeresis becomes its
    capital (376). *)
Definition title_full (c : ascii) : text :=
  let n := N_of_ascii c in
  if between 97 122 n || between 224 246 n || between 248 254 n
  then [(n - 32)%N]
  else if (n =? 181)%N then [924%N]
  else if (n =? 223)%N then [83%N; 115%N]
  else if (n =? 255)%N then [376%N]
  else [n].

(** [s.title()]: a character that follows a cased character is
    lowercased, any other character is titlecased.  [previous_is_cased] is
    the flag the loop carries. *)
Fixpoint title_from (previous_is_cased : bool) (s : string) : text :=
  match s with
  | EmptyString => []
  | String c s' =>
      ((if previous_is_cased then lower_full c else title_full c) ++
       title_from (is_cased c) s')%list
  end.

Definition title (s : string) : text := title_from false s.

(** The string holds ASCII characters only. *)
Fixpoint is_ascii (s : string) : bool :=
  match s with
  | EmptyString => true
  | String c s' => Nat.ltb (nat_of_ascii c) 128 && is_ascii s'
  end.

End PyStr.

(** ** The Streamlit front end ([streamlit_app.py]) *)

(** The members of [ActivityLevel], in declaration order. *)
Definition ActivityLevel_members : list ActivityLevel :=
  [SEDENTARY; LIGHTLY_ACTIVE; MODERATELY_ACTIVE; VERY_ACTIVE; EXTREMELY_ACTIVE].

(** [ActivityLevel(value)]: the member with that value, if any (Python
    raises [ValueError] when there is none). *)
Definition ActivityLevel_of_value (value : string) : option ActivityLevel :=
  find (fun a => String.eqb (ActivityLevel_value a) value) ActivityLevel_members.

(** A dict with string keys, in insertion order. *)
Definition str_dict (V : Type) : Type := list (string * V).

Fixpoint str_dict_get {V : Type} (d : str_dict V) (k : string) : option V :=
  match d with
  | [] => None
  | (k', v) :: d' => if String.eqb k' k then Some v else str_dict_get d' k
  end.

Definition ACTIVITY_LEVELS : str_dict string :=
  [ ("Sedentary (little to no exercise)", "sedentary");
    ("Lightly Active (light exercise 1-3 days/week)", "lightly_active");
    ("Moderately Active (moderate exercise 3-5 days/week)", "moderately_active");
    ("Very Active (hard exercise 6-7 days/week)", "very_active");
    ("Extremely Active (very hard exercise, physical job)", "extremely_active") ].

(** The options of the activity select box: [list(ACTIVITY_LEVELS.keys())];
    the box opens on [index=2]. *)
Definition activity_options : list string := map fst ACTIVITY_LEVELS.

Definition default_activity_option : option string := nth_error activity_options 2.

(** What building the profile in [main] can raise. *)
Inductive ui_error : Type :=
| UiKeyError (key : string)
| UiValueError (msg : string)
| UiValidationError (msg : string).

(** [fitness_goals if fitness_goals.strip() else None] *)
Definition ui_fitness_goals (fitness_goals : string) : option string :=
  if PyStr.truthy (PyStr.strip fitness_goals) then Some fitness_goals else None.

(** The profile [main] builds from the widgets when "Get AI Analysis" is
    pressed: the activity value is looked up in [ACTIVITY_LEVELS], turned
    into an [ActivityLevel], and the model is constructed. *)
Definition ui_profile (age : Z) (weight height : float) (gender : string)
    (activity_display : string) (fitness_goals : string)
  : FitnessProfile + ui_error :=
  match str_dict_get ACTIVITY_LEVELS activity_display with
  | None => inr (UiKeyError activity_display)
  | Some activity_level =>
      match ActivityLevel_of_value activity_level with
      | None => inr (UiValueError activity_level)
      | Some level =>
          match FitnessProfile_new age weight height gender level
                  (ui_fitness_goals fitness_goals) with
          | Ok p => inl p
          | Raise e => inr (UiValidationError (exn_message e))
          end
      end
  end.

(** The ranges the number inputs enforce: age 13..120, weight 30.0..300.0,
    height 100.0..250.0. *)
Definition widget_ranges (age : Z) (weight height : float) : bool :=
  (13 <=? age) && (age <=? 120) &&
  (30 <=? weight)%float && (weight <=? 300)%float &&
  (100 <=? height)%float && (height <=? 250)%float.

(** *** The API key *)

(** Where a key can come from: [st.secrets["OPENAI_API_KEY"]] ([None] when
    the lookup raises) and the environment variable ([None] when unset). *)
Record key_sources : Type := mkKeySources {
  secret : option string;
  environ : option string
}.

Definition get_openai_api_key (k : key_sources) : option string :=
  match secret k with
  | Some key => Some key
  | None => environ k
  end.

Definition check_api_key (k : key_sources) : bool :=
  match get_openai_api_key k with
  | Some _ => true
  | None => false
  end.

(** [not api_key]: the key is [None] or empty. *)
Definition key_missing (api_key : option string) : bool :=
  match api_key with
  | None => true
  | Some key => negb (PyStr.truthy key)
  end.

(** [get_fitness_agent] of the front end, on the module-level
    [fitness_agent] ([None] until the first successful call): the key is
    looked at only when the agent has yet to be created.  The result is the
    agent, or the [ValueError]'s message, and the new module state. *)
Definition ui_get_fitness_agent (k : key_sources) (fitness_agent : option Agent)
  : (Agent + string) * option Agent :=
  match fitness_agent with
  | Some agent => (inl agent, Some agent)
  | None =>
      if key_missing (get_openai_api_key k)
      then (inr "OpenAI API key not found", None)
      else (inl get_fitness_agent, Some get_fitness_agent)
  end.

(** [analyze_profile] of the front end: any exception is re-raised as
    [Exception("Error analyzing profile: ...")], here its message.  The
    components are the outcome, the number of generation requests and the
    new module state. *)
Definition ui_analyze_profile (k : key_sources) (fitness_agent : option Agent)
    (b : backend) (profile : FitnessProfile)
  : outcome string FitnessReportResult * nat * option Agent :=
  match ui_get_fitness_agent k fitness_agent with
  | (inr msg, st) =>
      (Raised ("Error analyzing profile: " ++ msg)%string, 0%nat, st)
  | (inl agent, st) =>
      match run agent b profile with
      | (Returned r, n) => (Returned r, n, st)
      | (Raised e, n) =>
          (Raised ("Error analyzing profile: " ++ exn_message e)%string, n, st)
      | (Awaiting, n) => (Awaiting, n, st)
      end
  end.

(** *** The nutrition tab *)

(** A dict with str keys given by their code points, in insertion order. *)
Fixpoint text_dict_get {V : Type} (d : list (PyStr.text * V)) (k : PyStr.text)
  : option V :=
  match d with
  | [] => None
  | (k', v) :: d' => if PyStr.text_eqb k' k then Some v else text_dict_get d' k
  end.

(** [meals_by_timing] of [display_nutrition_plan]: a dict from heading to
    the meals under it, in insertion order. *)
Definition meal_groups : Type := list (PyStr.text * list Meal.t).

(** One turn of the loop: create the heading's list if it is new, then
    append the meal. *)
Fixpoint add_meal (timing : PyStr.text) (meal : Meal.t) (g : meal_groups)
  : meal_groups :=
  match g with
  | [] => [(timing, [meal])]
  | (t, meals) :: g' =>
      if PyStr.text_eqb t timing then (t, (meals ++ [meal])%list) :: g'
      else (t, meals) :: add_meal timing meal g'
  end.

Definition meals_by_timing (nutrition_plan : list Meal.t) : meal_groups :=
  fold_left
    (fun g meal => add_meal (PyStr.title (Meal.timing meal)) meal g)
    nutrition_plan [].

(** The heading a meal is shown under. *)
Definition heading (meal : Meal.t) : PyStr.text :=
  PyStr.title (Meal.timing meal).

(** The distinct elements of a list, each at its first occurrence. *)
Fixpoint first_occurrences (l : list PyStr.text) : list PyStr.text :=
  match l with
  | [] => []
  | x :: l' =>
      x :: filter (fun y => negb (PyStr.text_eqb x y)) (first_occurrences l')
  end.

(** ** The launcher ([run_app.py]) *)

(** The [.env] file as [check_env_file] finds it. *)
Inductive env_file : Type :=
| Missing
| Unreadable (error : string)
| Content (content : string).

(** [check_env_file]: the file exists, can be read, contains
    ["OPENAI_API_KEY="] and does not contain the placeholder. *)
Definition check_env_file (f : env_file) : bool :=
  match f with
  | Missing => false
  | Unreadable _ => false
  | Content content =>
      PyStr.contains "OPENAI_API_KEY=" content &&
      negb (PyStr.contains "your_openai_api_key_here" content)
  end.

Inductive child : Type :=
| ApiServer
| StreamlitUI.

(** What the launcher does to the outside, in order: it asks the question
    of [input], gets a child process that is still running after the
    start-up wait, or sends [terminate()] to a child. *)
Inductive action : Type :=
| Ask
| Started (c : child)
| Terminate (c : child).

(** What the monitoring loop meets: a turn of the loop, with what the two
    [poll()] calls find ([true]: still running), or Ctrl+C, with what the
    two [poll()] calls of the handler find. *)
Inductive monitor_event : Type :=
| Tick (api_alive ui_alive : bool)
| CtrlC (api_alive ui_alive : bool).

(** The surroundings of one launch. *)
Record launch : Type := mkLaunch {
  dependencies_installed : bool;
  dotenv : env_file;
  answer : string;
  api_survives_start : bool;
  ui_survives_start : bool;
  events : list monitor_event
}.

(** How [main] ends: [sys.exit(code)], a normal return, or still in the
    loop when the events known so far run out. *)
Inductive finish : Type :=
| Exit (code : Z)
| Return
| Monitoring.

(** The [while True] loop and its [KeyboardInterrupt] handler. *)
Fixpoint monitor (evs : list monitor_event) : finish * list action :=
  match evs with
  | [] => (Monitoring, [])
  | Tick api_alive ui_alive :: evs' =>
      if negb api_alive then (Return, [])
      else if negb ui_alive then (Return, [])
      else monitor evs'
  | CtrlC api_alive ui_alive :: _ =>
      (Return,
       ((if api_alive then [Terminate ApiServer] else []) ++
        (if ui_alive then [Terminate StreamlitUI] else []))%list)
  end.

(** [response != 'y'] for [response = input(...).lower().strip()]. *)
Definition declined (answer : string) : bool :=
  negb (String.eqb (PyStr.strip (Py.lower answer)) "y").

(** [main] of the launcher. *)
Definition launcher_main (w : launch) : finish * list action :=
  if negb (dependencies_installed w) then (Exit 1, [])
  else
    let env_ready := check_env_file (dotenv w) in
    let asked := if env_ready then [] else [Ask] in
    if negb env_ready && declined (answer w) then (Exit 1, asked)
    else if negb (api_survives_start w) then (Exit 1, asked)
    else if negb (ui_survives_start w)
    then (Exit 1, (asked ++ [Started ApiServer; Terminate ApiServer])%list)
    else
      let (fin, acts) := monitor (events w) in
      (fin, (asked ++ [Started ApiServer; Started StreamlitUI] ++ acts)%list).

(** The children that were started and not sent [terminate()]. *)
Definition child_eqb (a b : child) : bool :=
  match a, b with
  | ApiServer, ApiServer | StreamlitUI, StreamlitUI => true
  | _, _ => false
  end.

Definition is_terminate_of (c : child) (a : action) : bool :=
  match a with
  | Terminate c' => child_eqb c c'
  | _ => false
  end.

Definition is_started (c : child) (a : action) : bool :=
  match a with
  | Started c' => child_eqb c c'
  | _ => false
  end.

Definition left_running (c : child) (log : list action) : bool :=
  existsb (is_started c) log && negb (existsb (is_terminate_of c) log).

(** ** Auxiliary notions for the statements *)

(** Every character of the string is white space. *)
Fixpoint all_space (s : string) : bool :=
  match s with
  | EmptyString => true
  | String c s' => PyStr.isspace c && all_space s'
  end.

(** The list a heading maps to, or the empty list. *)
Definition group_of (g : meal_groups) (k : PyStr.text) : list Meal.t :=
  match text_dict_get g k with
  | Some meals => meals
  | None => []
  end.

(** The number of tool calls among the answers of the backend. *)
Definition tool_calls (script : list model_response) : nat :=
  List.length
    (filter (fun r => match r with CallGetMotivation => true | _ => false end)
       script).

(** A launch that gets both children running. *)
Definition both_started (w : launch) : Prop :=
  dependencies_installed w = true /\
  (check_env_file (dotenv w) = true \/ declined (answer w) = false) /\
  api_survives_start w = true /\
  ui_survives_start w = true.

(** ** The prompt of [get_motivation] *)

(** [s.replace(old, new)] for one-character [old] and [new]. *)
Fixpoint replace_char (old new : ascii) (s : string) : string :=
  match s with
  | EmptyString => EmptyString
  | String c s' =>
      String (if Ascii.eqb c old then new else c) (replace_char old new s')
  end.

(** [profile.activity_level.value.replace('_', ' ')] *)
Definition activity_phrase (profile : FitnessProfile) : string :=
  replace_char "_" " " (ActivityLevel_value (activity_level profile)).

(** [profile.fitness_goals or 'general fitness improvement'] *)
Definition goals_phrase (profile : FitnessProfile) : string :=
  match fitness_goals profile with
  | Some goals =>
      if PyStr.truthy goals then goals else "general fitness improvement"
  | None => "general fitness improvement"
  end.

(** ** The BMR calculator of the front end *)

(** The profile [main] builds when "Calculate BMR" is pressed: as for the
    analysis, without goals. *)
Definition ui_bmr_profile (age : Z) (weight height : float) (gender : string)
    (activity_display : string) : FitnessProfile + ui_error :=
  match str_dict_get ACTIVITY_LEVELS activity_display with
  | None => inr (UiKeyError activity_display)
  | Some activity_level =>
      match ActivityLevel_of_value activity_level with
      | None => inr (UiValueError activity_level)
      | Some level =>
          match FitnessProfile_new age weight height gender level None with
          | Ok p => inl p
          | Raise e => inr (UiValidationError (exn_message e))
          end
      end
  end.

(** ** Answers after which the run goes on *)

(** The answer makes the run ask the backend again: a tool call, or a final
    answer that fails validation. *)
Definition asks_again (r : model_response) : bool :=
  match r with
  | RequestFailed _ => false
  | CallGetMotivation => true
  | FinalResult raw => schema_invalid raw
  end.

(** The number of final answers among the answers of the backend. *)
Definition final_answers (script : list model_response) : nat :=
  List.length
    (filter (fun r => match r with FinalResult _ => true | _ => false end)
       script).

(** A report with nothing in it but a calorie figure. *)
Definition hollow_report : FitnessReportResult :=
  mkFitnessReportResult [] [] 2000 EmptyString [].

(** "déjeuner" and "DÉJEUNER", with the e acute as the code points 233 and
    201. *)
Definition dejeuner_lower : string :=
  String "d" (String (ascii_of_nat 233) "jeuner").

Definition dejeuner_upper : string :=
  String "D" (String (ascii_of_nat 201) "JEUNER").

(** * Properties *)

(** ** The rounding model on values whose Python result is well known *)

Lemma round_known_values :
  Py.round 0.5 0 = Ok 0%float /\
  Py.round 1.5 0 = Ok 2%float /\
  Py.round 2.5 0 = Ok 2%float /\
  Py.round (-2.5) 0 = Ok (-2)%float /\
  Py.round 2.675 2 = Ok 2.67%float /\
  Py.round 0.125 2 = Ok 0.12%float /\
  Py.round 1234.5678 (-2) = Ok 1200%float /\
  Py.round infinity 2 = Ok infinity.
Proof.
  repeat (split; [vm_compute; reflexivity |]). vm_compute. reflexivity.
Qed.

(** ** Integer-to-float conversion on the ranges the calculator uses *)

Lemma float_of_int_ok (n : Z) :
  is_ok (Py.float_of_int n) = true ->
  Py.float_of_int n = Ok (SF2Prim (Py.nearest_of_int n)).
Proof.
  unfold Py.float_of_int.
  destruct (Py.nearest_of_int n); simpl; intros H; try reflexivity.
  discriminate H.
Qed.

Lemma forallb_Z_range (P : Z -> bool) (lo len : nat) :
  forallb P (map Z.of_nat (seq lo len)) = true ->
  forall z, Z.of_nat lo <= z < Z.of_nat (lo + len) -> P z = true.
Proof.
  intros H z Hz.
  rewrite forallb_forall in H.
  apply H.
  rewrite in_map_iff.
  exists (Z.to_nat z). split.
  - apply Z2Nat.id. lia.
  - apply in_seq. lia.
Qed.

Lemma float_of_age_term (a : Z) :
  13 <= a <= 120 ->
  Py.float_of_int (5 * a) = Ok (SF2Prim (Py.nearest_of_int (5 * a))).
Proof.
  intros Ha.
  apply float_of_int_ok.
  apply (forallb_Z_range (fun z => is_ok (Py.float_of_int (5 * z))) 13 108).
  - vm_compute. reflexivity.
  - simpl. lia.
Qed.

Lemma float_of_int_10 : Py.float_of_int 10 = Ok 10%float.
Proof. vm_compute. reflexivity. Qed.

Lemma float_of_int_5 : Py.float_of_int 5 = Ok 5%float.
Proof. vm_compute. reflexivity. Qed.

Lemma float_of_int_161 : Py.float_of_int 161 = Ok 161%float.
Proof. vm_compute. reflexivity. Qed.

Lemma float_of_int_500 : Py.float_of_int 500 = Ok 500%float.
Proof. vm_compute. reflexivity. Qed.

Lemma valid_profile_age (p : FitnessProfile) :
  valid_profile p = true -> 13 <= age p <= 120.
Proof.
  unfold valid_profile. intros H.
  repeat (apply andb_prop in H; destruct H as [H ?]).
  apply Z.leb_le in H. lia.
Qed.

(** ** The dictionary of multipliers *)

Lemma activity_multipliers_get (a : ActivityLevel) :
  dict_get activity_multipliers a = Ok (activity_multiplier a).
Proof. destruct a; reflexivity. Qed.

(** ** The calculator against the formula *)

Ltac by_all_characters c :=
  destruct c as [[] [] [] [] [] [] [] []]; vm_compute; reflexivity.

Lemma lower_is_m (c : ascii) :
  Ascii.eqb (Py.lower_ascii c) "m" = letter "m" "M" c.
Proof. by_all_characters c. Qed.

Lemma lower_is_a (c : ascii) :
  Ascii.eqb (Py.lower_ascii c) "a" = letter "a" "A" c.
Proof. by_all_characters c. Qed.

Lemma lower_is_l (c : ascii) :
  Ascii.eqb (Py.lower_ascii c) "l" = letter "l" "L" c.
Proof. by_all_characters c. Qed.

Lemma lower_is_e (c : ascii) :
  Ascii.eqb (Py.lower_ascii c) "e" = letter "e" "E" c.
Proof. by_all_characters c. Qed.

(** The test of the code, [gender.lower() == 'male'], accepts exactly the
    sixteen spellings of "male". *)
Lemma lower_eq_male (g : string) :
  String.eqb (Py.lower g) "male" = is_male g.
Proof.
  destruct g as [| c1 [| c2 [| c3 [| c4 [| c5 g]]]]];
    cbn [Py.lower String.eqb is_male];
    rewrite ?lower_is_m, ?lower_is_a, ?lower_is_l, ?lower_is_e;
    repeat match goal with
           | |- context [letter ?l ?u ?c] => destruct (letter l u c)
           end;
    reflexivity.
Qed.

Lemma base_bmr_eq (p : FitnessProfile) :
  13 <= age p <= 120 ->
  base_bmr p = Ok (mifflin_st_jeor_base p).
Proof.
  intros Ha.
  unfold base_bmr, mifflin_st_jeor_base,
    Py.int_mul_float, Py.float_sub_int, Py.float_add_int.
  rewrite float_of_int_10, (float_of_age_term _ Ha), lower_eq_male.
  unfold bind.
  destruct (is_male (gender p)).
  - rewrite float_of_int_5. reflexivity.
  - rewrite float_of_int_161. reflexivity.
Qed.

Lemma calculate_bmr_eq (p : FitnessProfile) :
  13 <= age p <= 120 ->
  calculate_bmr p = Ok (mifflin_st_jeor p).
Proof.
  intros Ha. unfold calculate_bmr.
  rewrite (base_bmr_eq _ Ha), activity_multipliers_get.
  reflexivity.
Qed.

Lemma float_neq (x y : float) :
  (x =? y)%float = false -> (y =? y)%float = true -> x <> y.
Proof.
  intros Hxy Hyy E. rewrite E in Hxy. rewrite Hxy in Hyy. discriminate Hyy.
Qed.

Lemma Ok_inj {A : Type} (a b : A) : Ok a = Ok b -> a = b.
Proof. intros E. injection E. trivial. Qed.

(** C5: on every profile within the declared bounds [calculate_bmr] returns
    the Mifflin-St Jeor base (the [+ 5] form when the gender is "male" in
    any mix of upper and lower case, the [- 161] form otherwise) times the
    multiplier of the activity level (1.2, 1.375, 1.55, 1.725, 1.9); on the
    male example the base is 1648.75 and the result is exactly 2555.5625. *)
Theorem calculate_bmr_mifflin_st_jeor :
  (forall p : FitnessProfile,
      valid_profile p = true -> calculate_bmr p = Ok (mifflin_st_jeor p)) /\
  base_bmr male_example = Ok 1648.75%float /\
  calculate_bmr male_example = Ok 2555.5625%float.
Proof.
  split; [| split].
  - intros p Hp. apply calculate_bmr_eq, valid_profile_age, Hp.
  - vm_compute. reflexivity.
  - vm_compute. reflexivity.
Qed.

Lemma calculate_bmr_mifflin_st_jeor_witness :
  valid_profile (with_gender male_example "MaLE") = true /\
  is_male "MaLE" = true /\
  calculate_bmr (with_gender male_example "MaLE") = Ok 2555.5625%float /\
  valid_profile female_example = true /\
  is_male "female" = false /\
  calculate_bmr female_example = Ok 1849.71875%float.
Proof.
  split; [vm_compute; reflexivity |].
  split; [reflexivity |].
  split.
  { rewrite (proj1 calculate_bmr_mifflin_st_jeor
               (with_gender male_example "MaLE")) by (vm_compute; reflexivity).
    vm_compute. reflexivity. }
  split; [vm_compute; reflexivity |].
  split; [reflexivity |].
  rewrite (proj1 calculate_bmr_mifflin_st_jeor female_example)
    by (vm_compute; reflexivity).
  vm_compute. reflexivity.
Defined.

(** C6 (as stated, refuted): the female example does not return 1849.72. *)
Lemma calculate_bmr_female_not_1849_72 :
  calculate_bmr female_example <> Ok 1849.72%float.
Proof.
  intros E.
  assert (H : calculate_bmr female_example = Ok 1849.71875%float)
    by (vm_compute; reflexivity).
  rewrite H in E. apply Ok_inj in E. revert E.
  apply float_neq; vm_compute; reflexivity.
Qed.

(** C6 (amended): on the female example the base is 1345.25 and
    [calculate_bmr] returns 1345.25 * 1.375 = 1849.71875 exactly, which is
    1849.72 once rounded to two decimals. *)
Theorem calculate_bmr_female_example :
  base_bmr female_example = Ok 1345.25%float /\
  (1345.25 * 1.375 = 1849.71875)%float /\
  calculate_bmr female_example = Ok 1849.71875%float /\
  Py.round 1849.71875 2 = Ok 1849.72%float.
Proof.
  split; [| split; [| split]]; vm_compute; reflexivity.
Qed.

(** C4: for the male example the /bmr endpoint answers bmr 2555.56 (the
    result 2555.5625 rounded to two decimals), daily_calories 2556,
    weight_loss_calories 2056 and weight_gain_calories 3056 (rounded to
    whole numbers), with the activity level's value. *)
Theorem bmr_endpoint_male_example :
  calculate_bmr_endpoint male_example =
    inl (Bmr.mkResponse 2555.56 2556 2056 3056 "moderately_active") /\
  Py.round 2555.5625 2 = Ok 2555.56%float /\
  Py.round 2555.5625 0 = Ok 2556%float /\
  Py.round (2555.5625 - 500) 0 = Ok 2056%float /\
  Py.round (2555.5625 + 500) 0 = Ok 3056%float.
Proof.
  split; [| split; [| split; [| split]]]; vm_compute; reflexivity.
Qed.

(** ** Case-insensitive gender matching *)

Lemma lower_ascii_idempotent (c : ascii) :
  Py.lower_ascii (Py.lower_ascii c) = Py.lower_ascii c.
Proof.
  destruct c as [[] [] [] [] [] [] [] []]; vm_compute; reflexivity.
Qed.

Lemma same_letter_lower (a b : ascii) :
  same_letter a b = true -> Py.lower_ascii a = Py.lower_ascii b.
Proof.
  unfold same_letter. intros H.
  apply orb_prop in H. destruct H as [H | H].
  - apply orb_prop in H. destruct H as [H | H].
    + apply Ascii.eqb_eq in H. now subst.
    + apply andb_prop in H. destruct H as [_ H].
      apply Ascii.eqb_eq in H. subst b.
      symmetry. apply lower_ascii_idempotent.
  - apply andb_prop in H. destruct H as [_ H].
    apply Ascii.eqb_eq in H. subst a.
    apply lower_ascii_idempotent.
Qed.

Lemma differ_only_in_case_lower (s t : string) :
  differ_only_in_case s t = true -> Py.lower s = Py.lower t.
Proof.
  revert t. induction s as [| a s IH]; intros [| b t] H; simpl in H;
    try discriminate H; try reflexivity.
  apply andb_prop in H. destruct H as [Hab Hst].
  simpl. rewrite (same_letter_lower _ _ Hab), (IH _ Hst). reflexivity.
Qed.

(** C7: two profiles that are the same but for the letter case of the
    gender string take the same branch, so [calculate_bmr] returns the same
    result on both. *)
Theorem calculate_bmr_gender_case_insensitive
    (p : FitnessProfile) (g1 g2 : string) :
  differ_only_in_case g1 g2 = true ->
  calculate_bmr (with_gender p g1) = calculate_bmr (with_gender p g2).
Proof.
  intros H.
  unfold calculate_bmr, base_bmr, with_gender. simpl.
  rewrite (differ_only_in_case_lower _ _ H). reflexivity.
Qed.

Lemma calculate_bmr_gender_case_insensitive_witness :
  differ_only_in_case "male" "MALE" = true /\
  differ_only_in_case "Male" "MALE" = true /\
  calculate_bmr (with_gender male_example "male") =
    calculate_bmr (with_gender male_example "MALE") /\
  calculate_bmr (with_gender male_example "Male") =
    calculate_bmr (with_gender male_example "MALE").
Proof.
  split; [reflexivity | split; [reflexivity | split]].
  - apply (calculate_bmr_gender_case_insensitive male_example "male" "MALE").
    reflexivity.
  - apply (calculate_bmr_gender_case_insensitive male_example "Male" "MALE").
    reflexivity.
Defined.

(** ** Totality of the calculator *)

(** C9: the dictionary of multipliers has an entry for each of the five
    activity levels, so the lookup raises no [KeyError], and on every
    profile within the declared bounds [calculate_bmr] returns a value. *)
Theorem calculate_bmr_total (p : FitnessProfile) :
  valid_profile p = true ->
  (forall a : ActivityLevel, exists m, dict_get activity_multipliers a = Ok m) /\
  exists v, calculate_bmr p = Ok v.
Proof.
  intros Hp. split.
  - intros a. exists (activity_multiplier a). apply activity_multipliers_get.
  - exists (mifflin_st_jeor p). apply calculate_bmr_eq, valid_profile_age, Hp.
Qed.

Lemma calculate_bmr_total_witness :
  valid_profile female_example = true /\
  exists v, calculate_bmr female_example = Ok v.
Proof.
  split.
  - vm_compute. reflexivity.
  - apply (calculate_bmr_total female_example). vm_compute. reflexivity.
Defined.

(** ** The /bmr endpoint: no clamp at zero *)

Lemma bind_Ok {A B : Type} (r : result A) (k : A -> result B) (b : B) :
  bind r k = Ok b -> exists a, r = Ok a /\ k a = Ok b.
Proof.
  destruct r as [a | e]; simpl; intros H.
  - exists a. split; [reflexivity | exact H].
  - discriminate H.
Qed.

Lemma weight_loss_raw_eq (b : float) : weight_loss_raw b = Ok (b - 500)%float.
Proof.
  unfold weight_loss_raw, Py.float_sub_int.
  rewrite float_of_int_500. reflexivity.
Qed.

Lemma weight_gain_raw_eq (b : float) : weight_gain_raw b = Ok (b + 500)%float.
Proof.
  unfold weight_gain_raw, Py.float_add_int.
  rewrite float_of_int_500. reflexivity.
Qed.

Lemma bmr_response_inv (p : FitnessProfile) (r : Bmr.response) :
  bmr_response p = Ok r ->
  exists b,
    calculate_bmr p = Ok b /\
    Py.round b 2 = Ok (Bmr.bmr r) /\
    Py.round b 0 = Ok (Bmr.daily_calories r) /\
    Py.round (b - 500) 0 = Ok (Bmr.weight_loss_calories r) /\
    Py.round (b + 500) 0 = Ok (Bmr.weight_gain_calories r).
Proof.
  unfold bmr_response. intros H.
  apply bind_Ok in H. destruct H as (b & Hb & H).
  rewrite weight_loss_raw_eq, weight_gain_raw_eq in H.
  apply bind_Ok in H. destruct H as (r2 & H2 & H).
  apply bind_Ok in H. destruct H as (r0 & H0 & H).
  apply bind_Ok in H. destruct H as (l & El & H).
  apply Ok_inj in El. subst l.
  apply bind_Ok in H. destruct H as (rl & Hl & H).
  apply bind_Ok in H. destruct H as (g & Eg & H).
  apply Ok_inj in Eg. subst g.
  apply bind_Ok in H. destruct H as (rg & Hg & H).
  apply Ok_inj in H. subst r. simpl.
  exists b. repeat (split; [assumption |]). assumption.
Qed.

(** C10 (as stated, refuted): the operands of the two roundings do not
    always differ by 1000.  For a valid profile of weight 1e20 both are the
    same binary64 value (and so are the two rounded figures); for the valid
    profile age 13, 70 kg, 175 cm, female, sedentary, they are
    2381.3000000000002 and 1381.3, whose difference is not 1000. *)
Lemma weight_gain_not_always_1000_above :
  valid_profile huge_weight_example = true /\
  (exists b, calculate_bmr huge_weight_example = Ok b /\
             weight_gain_raw b = weight_loss_raw b) /\
  (exists r, calculate_bmr_endpoint huge_weight_example = inl r /\
             Bmr.weight_gain_calories r = Bmr.weight_loss_calories r) /\
  valid_profile young_female_example = true /\
  (exists b g l, calculate_bmr young_female_example = Ok b /\
                 weight_gain_raw b = Ok g /\ weight_loss_raw b = Ok l /\
                 (g - l =? 1000)%float = false).
Proof.
  split; [vm_compute; reflexivity |].
  split; [exists 1.2e21%float; split; vm_compute; reflexivity |].
  split.
  { exists (Bmr.mkResponse 1.2e21 1.2e21 1.2e21 1.2e21 "sedentary").
    split; vm_compute; reflexivity. }
  split; [vm_compute; reflexivity |].
  exists 1881.3%float, 2381.3000000000002%float, 1381.3%float.
  split; [| split; [| split]]; vm_compute; reflexivity.
Qed.

(** C10 (amended): whenever the endpoint answers, weight_loss_calories is
    [round(bmr - 500, 0)] and weight_gain_calories is [round(bmr + 500, 0)]
    of the same [bmr], with no clamp at zero: the valid profile age 80,
    30 kg, 100 cm, female, sedentary, has an activity-adjusted BMR below 500
    and gets weight_loss_calories = -63.  On the two example profiles of
    the specification the operands [bmr + 500] and [bmr - 500] differ by
    exactly 1000. *)
Theorem bmr_endpoint_no_clamp :
  (forall (p : FitnessProfile) (r : Bmr.response),
      calculate_bmr_endpoint p = inl r ->
      exists b,
        calculate_bmr p = Ok b /\
        weight_loss_raw b = Ok (b - 500)%float /\
        weight_gain_raw b = Ok (b + 500)%float /\
        Py.round (b - 500) 0 = Ok (Bmr.weight_loss_calories r) /\
        Py.round (b + 500) 0 = Ok (Bmr.weight_gain_calories r)) /\
  (valid_profile low_bmr_example = true /\
   exists b r,
     calculate_bmr low_bmr_example = Ok b /\ (b <? 500)%float = true /\
     calculate_bmr_endpoint low_bmr_example = inl r /\
     Bmr.weight_loss_calories r = (-63)%float /\
     (Bmr.weight_loss_calories r <? 0)%float = true) /\
  ((2555.5625 + 500) - (2555.5625 - 500) = 1000)%float /\
  ((1849.71875 + 500) - (1849.71875 - 500) = 1000)%float.
Proof.
  split; [| split; [| split]].
  - intros p r H. unfold calculate_bmr_endpoint in H.
    destruct (bmr_response p) as [r' | e] eqn:E; [| discriminate H].
    injection H as ->.
    destruct (bmr_response_inv _ _ E) as (b & Hb & _ & _ & Hl & Hg).
    exists b. split; [exact Hb |].
    split; [apply weight_loss_raw_eq |].
    split; [apply weight_gain_raw_eq |].
    split; assumption.
  - split; [vm_compute; reflexivity |].
    exists 436.8%float,
      (Bmr.mkResponse 436.8 437 (-63) 937 "sedentary").
    split; [| split; [| split; [| split]]]; vm_compute; reflexivity.
  - vm_compute. reflexivity.
  - vm_compute. reflexivity.
Qed.

Lemma bmr_endpoint_no_clamp_witness :
  exists b,
    calculate_bmr low_bmr_example = Ok b /\
    weight_loss_raw b = Ok (b - 500)%float /\
    weight_gain_raw b = Ok (b + 500)%float /\
    Py.round (b - 500) 0 = Ok (-63)%float /\
    Py.round (b + 500) 0 = Ok 937%float.
Proof.
  apply (proj1 bmr_endpoint_no_clamp low_bmr_example
           (Bmr.mkResponse 436.8 437 (-63) 937 "sedentary")).
  vm_compute. reflexivity.
Defined.

(** ** Profile construction *)

Lemma Prim2SF_not_nan (x : float) :
  is_nan x = false -> Prim2SF x <> S754_nan.
Proof.
  intros Hx. unfold Prim2SF. rewrite Hx.
  destruct (is_zero x); [discriminate |].
  destruct (is_infinity x); [discriminate |].
  destruct (Z.frexp x) as [r e].
  destruct (shr_fexp prec emax _ _ _) as [shr e'].
  destruct (shr_m shr); discriminate.
Qed.

(** For a float that is not NaN, failing [gt=0] is being [<= 0]. *)
Lemma gt_zero_violated (x : float) :
  is_nan x = false ->
  ((0 <? x)%float = false <-> (x <=? 0)%float = true).
Proof.
  intros Hx. rewrite ltb_spec, leb_spec.
  pose proof (Prim2SF_not_nan x Hx) as Hn.
  change (Prim2SF 0) with (S754_zero false).
  destruct (Prim2SF x) as [s | s | | s m e]; try congruence;
    destruct s; vm_compute; split; congruence.
Qed.

Lemma FitnessProfile_errors_nil (a : Z) (w h : float) :
  FitnessProfile_errors a w h = [] <->
  ((13 <=? a) && (a <=? 120) && (0 <? w)%float && (0 <? h)%float = true).
Proof.
  unfold FitnessProfile_errors, check.
  destruct (13 <=? a), (a <=? 120), (0 <? w)%float, (0 <? h)%float;
    simpl; split; intros H; try reflexivity; discriminate H.
Qed.

Lemma FitnessProfile_new_ok (a : Z) (w h : float) (g : string)
    (l : ActivityLevel) (f : option string) :
  is_ok (FitnessProfile_new a w h g l f) = true <->
  FitnessProfile_errors a w h = [].
Proof.
  unfold FitnessProfile_new.
  destruct (FitnessProfile_errors a w h); simpl; split; intros H;
    try reflexivity; discriminate H.
Qed.

Lemma bounds_of_andb (a : Z) (w h : float) :
  ((13 <=? a) && (a <=? 120) && (0 <? w)%float && (0 <? h)%float = true) <->
  (13 <= a <= 120 /\ (0 <? w)%float = true /\ (0 <? h)%float = true).
Proof.
  rewrite !andb_true_iff, !Z.leb_le. tauto.
Qed.

(** C8: building a profile from arguments of the declared types fails
    exactly when a numeric field violates its bound (age below 13 or above
    120, weight not greater than 0, height not greater than 0; for a float
    that is not NaN, "not greater than 0" is [<= 0]); a profile that was
    built has the given fields and satisfies the three bounds; and
    [POST /analyze] answers a body that fails validation with status 422
    without making any generation request. *)
Theorem FitnessProfile_construction :
  (forall a w h g l f,
      is_ok (FitnessProfile_new a w h g l f) = false <->
      (a < 13 \/ 120 < a \/
       (0 <? w)%float = false \/ (0 <? h)%float = false)) /\
  (forall w, is_nan w = false ->
      ((0 <? w)%float = false <-> (w <=? 0)%float = true)) /\
  (forall a w h g l f p,
      FitnessProfile_new a w h g l f = Ok p ->
      p = mkFitnessProfile a w h g l f /\
      13 <= age p <= 120 /\
      (0 <? weight p)%float = true /\ (0 <? height p)%float = true) /\
  (forall b a w h g l f,
      is_ok (FitnessProfile_new a w h g l f) = false ->
      exists msg,
        post_analyze b a w h g l f =
          (Raised (mkHTTPException 422 msg), 0%nat)).
Proof.
  split; [| split; [| split]].
  - intros a w h g l f.
    rewrite <- not_true_iff_false, FitnessProfile_new_ok,
      FitnessProfile_errors_nil, bounds_of_andb.
    split.
    + intros H.
      destruct (Z_lt_dec a 13) as [? | ?]; [now left |].
      destruct (Z_lt_dec 120 a) as [? | ?]; [now right; left |].
      destruct (0 <? w)%float eqn:Ew; [| now right; right; left].
      destruct (0 <? h)%float eqn:Eh; [| now right; right; right].
      exfalso. apply H. repeat split; lia.
    + intros [H | [H | [H | H]]] (Ha & Hw & Hh);
        try lia; congruence.
  - exact gt_zero_violated.
  - intros a w h g l f p H.
    assert (Hok : is_ok (FitnessProfile_new a w h g l f) = true)
      by (rewrite H; reflexivity).
    rewrite FitnessProfile_new_ok in Hok.
    unfold FitnessProfile_new in H. rewrite Hok in H.
    apply Ok_inj in H. subst p. split; [reflexivity |]. simpl.
    apply bounds_of_andb, FitnessProfile_errors_nil, Hok.
  - intros b a w h g l f H. unfold post_analyze.
    destruct (FitnessProfile_new a w h g l f) as [p | e]; [discriminate H |].
    exists (exn_message e). reflexivity.
Qed.

Lemma FitnessProfile_construction_witness :
  (exists msg,
      post_analyze no_backend 12 70 175 "male" SEDENTARY None =
        (Raised (mkHTTPException 422 msg), 0%nat)) /\
  13 <= age male_example <= 120 /\
  (0 <? weight male_example)%float = true /\
  (0 <? height male_example)%float = true.
Proof.
  destruct FitnessProfile_construction as (_ & _ & Hbuilt & Hrej).
  split.
  - apply Hrej. vm_compute. reflexivity.
  - apply (Hbuilt 30 70%float 175%float "male" MODERATELY_ACTIVE None).
    vm_compute. reflexivity.
Defined.

(** ** The orchestrator *)

(** Tool calls that get their quotes and invalid answers within the retry
    allowance are each followed by another request: the run goes on from
    the answer after them, with one retry counted for each invalid answer
    and one request for each answer. *)
Lemma run_from_resume (agent : Agent) (pre rest : list model_response)
    (quotes : list (list string)) (motivation : list motivation_response)
    (retry requests : nat) :
  Forall (fun a => asks_again a = true) pre ->
  List.length quotes = tool_calls pre ->
  (retry + final_answers pre <= result_retries agent)%nat ->
  run_from agent (pre ++ rest) (map Quotes quotes ++ motivation) retry requests =
  run_from agent rest motivation (retry + final_answers pre)
    (requests + List.length pre).
Proof.
  revert quotes retry requests.
  induction pre as [| a pre IH]; intros quotes retry requests Hpre Hq Hr.
  - destruct quotes; [| discriminate Hq]. simpl.
    rewrite !Nat.add_0_r. reflexivity.
  - inversion Hpre as [| ? ? Ha Hpre']; subst.
    destruct a as [d | | raw]; [discriminate Ha | |].
    + destruct quotes as [| q quotes]; [discriminate Hq |].
      unfold tool_calls in Hq. simpl in Hq. injection Hq as Hq.
      unfold final_answers in *. simpl in *.
      rewrite IH by assumption. f_equal. lia.
    + unfold tool_calls in Hq. simpl in Hq.
      unfold final_answers in *. simpl in *.
      unfold schema_invalid in Ha.
      destruct (validate raw) as [r | d]; [discriminate Ha |].
      assert (Hlt : Nat.ltb (result_retries agent) (S retry) = false)
        by (apply Nat.ltb_ge; lia).
      rewrite Hlt, IH; [| assumption | assumption | lia].
      f_equal; lia.
Qed.

(** One invalid answer more than the allowance ends the run. *)
Lemma run_from_exhausted (agent : Agent) (raw : raw_output)
    (rest : list model_response) (motivation : list motivation_response)
    (requests : nat) :
  schema_invalid raw = true ->
  run_from agent (FinalResult raw :: rest) motivation
    (result_retries agent) requests =
  (Raised (UnexpectedModelBehavior exceeded_message), S requests).
Proof.
  intros Hraw. simpl. unfold schema_invalid in Hraw.
  destruct (validate raw) as [r | d]; [discriminate Hraw |].
  assert (Hlt : Nat.ltb (result_retries agent) (S (result_retries agent)) = true)
    by (apply Nat.ltb_lt; lia).
  rewrite Hlt. reflexivity.
Qed.

(** Whatever a run returns is one of the backend's final answers, and it
    passed validation. *)
Lemma run_from_returned (agent : Agent) (script : list model_response)
    (motivation : list motivation_response) (retry requests n : nat)
    (r : FitnessReportResult) :
  run_from agent script motivation retry requests = (Returned r, n) ->
  In (FinalResult (Shaped r)) script /\ FitnessReportResult_valid r = true.
Proof.
  revert motivation retry requests.
  induction script as [| resp script IH]; intros motivation retry requests H;
    simpl in H.
  - discriminate H.
  - destruct resp as [d | | raw].
    + discriminate H.
    + destruct motivation as [| [d | qs] motivation']; try discriminate H.
      apply IH in H. destruct H as [Hin Hv]. split; [right |]; assumption.
    + destruct raw as [d | r']; simpl in H.
      * destruct (Nat.ltb (result_retries agent) (S retry));
          [discriminate H |].
        apply IH in H. destruct H as [Hin Hv]. split; [right |]; assumption.
      * destruct (FitnessReportResult_valid r') eqn:Ev.
        -- injection H as -> _. split; [left; reflexivity | exact Ev].
        -- destruct (Nat.ltb (result_retries agent) (S retry));
             [discriminate H |].
           apply IH in H. destruct H as [Hin Hv].
           split; [right |]; assumption.
Qed.

Lemma analyze_profile_returned (b : backend) (p : FitnessProfile)
    (r : FitnessReportResult) (n : nat) :
  analyze_profile b p = (Returned r, n) ->
  run get_fitness_agent b p = (Returned r, n).
Proof.
  unfold analyze_profile.
  destruct (run get_fitness_agent b p) as [[r' | e | ] n'] eqn:E;
    intros H; try discriminate H.
  injection H as -> ->. reflexivity.
Qed.

Lemma FitnessReportResult_valid_spec (r : FitnessReportResult) :
  FitnessReportResult_valid r = true <->
  (forall e, In e (workout_plan r) ->
             1 <= Exercise.sets e /\ 1 <= Exercise.reps e /\
             0 <= Exercise.rest_time e) /\
  (forall m, In m (nutrition_plan r) ->
             0 <= Meal.calories m /\
             (0 <=? Meal.protein m)%float = true /\
             (0 <=? Meal.carbs m)%float = true /\
             (0 <=? Meal.fats m)%float = true).
Proof.
  unfold FitnessReportResult_valid.
  rewrite andb_true_iff, !forallb_forall.
  unfold Exercise.valid, Meal.valid.
  split.
  - intros [He Hm]. split.
    + intros e Hin. specialize (He e Hin).
      rewrite !andb_true_iff, !Z.leb_le in He. tauto.
    + intros m Hin. specialize (Hm m Hin).
      rewrite !andb_true_iff, Z.leb_le in Hm. tauto.
  - intros [He Hm]. split.
    + intros e Hin. specialize (He e Hin).
      rewrite !andb_true_iff, !Z.leb_le. tauto.
    + intros m Hin. specialize (Hm m Hin).
      rewrite !andb_true_iff, Z.leb_le. tauto.
Qed.

(** C1 (as stated, refuted): a report with an empty workout plan, an empty
    nutrition plan, an empty quote and no recommendation passes validation
    and is returned on the first attempt. *)
Lemma analyze_profile_returns_hollow_report :
  analyze_profile (answers [FinalResult (Shaped hollow_report)]) male_example =
    (Returned hollow_report, 1%nat) /\
  workout_plan hollow_report = [] /\
  nutrition_plan hollow_report = [] /\
  motivational_quote hollow_report = EmptyString /\
  recommendations hollow_report = [].
Proof.
  split; [vm_compute; reflexivity |].
  repeat (split; [reflexivity |]). reflexivity.
Qed.

(** C1 (amended): every report [analyze_profile] returns is a final answer
    of the backend that conforms to the schema of [FitnessReportResult]:
    each exercise has sets >= 1, reps >= 1 and rest_time >= 0, each meal has
    calories, protein, carbs and fats >= 0.  An answer that violates the
    schema is not returned, and it triggers another attempt: after any
    sequence of tool calls and of at most three invalid answers the backend
    is asked again, and the valid answer it then gives is the report
    returned. *)
Theorem analyze_profile_returns_validated :
  (forall b p r n,
      analyze_profile b p = (Returned r, n) ->
      In (FinalResult (Shaped r)) (generate b p) /\
      schema_invalid (Shaped r) = false /\
      (forall e, In e (workout_plan r) ->
                 1 <= Exercise.sets e /\ 1 <= Exercise.reps e /\
                 0 <= Exercise.rest_time e) /\
      (forall m, In m (nutrition_plan r) ->
                 0 <= Meal.calories m /\
                 (0 <=? Meal.protein m)%float = true /\
                 (0 <=? Meal.carbs m)%float = true /\
                 (0 <=? Meal.fats m)%float = true)) /\
  (forall b p pre quotes later r rest,
      generate b p = (pre ++ FinalResult (Shaped r) :: rest)%list ->
      motivate b p = (map Quotes quotes ++ later)%list ->
      Forall (fun a => asks_again a = true) pre ->
      List.length quotes = tool_calls pre ->
      (final_answers pre <= 3)%nat ->
      FitnessReportResult_valid r = true ->
      analyze_profile b p = (Returned r, S (List.length pre))).
Proof.
  split.
  - intros b p r n H.
    apply analyze_profile_returned in H. unfold run in H.
    apply run_from_returned in H. destruct H as [Hin Hv].
    split; [exact Hin |].
    split; [unfold schema_invalid; simpl; rewrite Hv; reflexivity |].
    apply FitnessReportResult_valid_spec, Hv.
  - intros b p pre quotes later r rest Hgen Hmot Hpre Hq Hlen Hv.
    unfold analyze_profile, run. rewrite Hgen, Hmot.
    rewrite run_from_resume; [| exact Hpre | exact Hq | simpl; lia].
    simpl. rewrite Hv. reflexivity.
Qed.

Lemma analyze_profile_returns_validated_witness :
  analyze_profile
    (mkBackend
       (fun _ => [CallGetMotivation; FinalResult zero_sets_output;
                  CallGetMotivation; FinalResult (Shaped sample_report)])
       (fun _ => [Quotes ["Keep going"]; Quotes ["One more rep"]]))
    male_example = (Returned sample_report, 4%nat).
Proof.
  apply (proj2 analyze_profile_returns_validated
           (mkBackend
              (fun _ => [CallGetMotivation; FinalResult zero_sets_output;
                         CallGetMotivation; FinalResult (Shaped sample_report)])
              (fun _ => [Quotes ["Keep going"]; Quotes ["One more rep"]]))
           male_example
           [CallGetMotivation; FinalResult zero_sets_output; CallGetMotivation]
           [["Keep going"]; ["One more rep"]] [] sample_report []).
  - reflexivity.
  - reflexivity.
  - repeat constructor.
  - reflexivity.
  - vm_compute. lia.
  - vm_compute. reflexivity.
Defined.

(** C2 (as stated, refuted): after three consecutive schema-invalid
    answers the agent asks a fourth time, and a valid fourth answer is
    returned as the report. *)
Lemma three_invalid_then_valid_returns :
  Forall (fun raw => schema_invalid raw = true)
    [zero_sets_output; Malformed "Field required"; zero_sets_output] /\
  analyze_profile
    (answers [FinalResult zero_sets_output;
              FinalResult (Malformed "Field required");
              FinalResult zero_sets_output;
              FinalResult (Shaped sample_report)])
    male_example = (Returned sample_report, 4%nat).
Proof.
  split.
  - repeat constructor.
  - vm_compute. reflexivity.
Qed.

(** C2 (amended): with [result_retries=3] the run allows three retries.
    When the backend gives a fourth schema-invalid answer (the first attempt
    and three retries, with any tool calls in between, which use up no
    retry), [analyze_profile] makes no further request, returns no report
    and raises an [HTTPException] of status 500 whose detail is "Error
    analyzing profile: Exceeded maximum retries (3) for result validation".
    Without tool calls that is after four requests. *)
Theorem analyze_profile_validation_exhausted
    (b : backend) (p : FitnessProfile) (pre : list model_response)
    (quotes : list (list string)) (later : list motivation_response)
    (raw : raw_output) (rest : list model_response) :
  generate b p = (pre ++ FinalResult raw :: rest)%list ->
  motivate b p = (map Quotes quotes ++ later)%list ->
  Forall (fun a => asks_again a = true) pre ->
  List.length quotes = tool_calls pre ->
  final_answers pre = 3%nat ->
  schema_invalid raw = true ->
  analyze_profile b p =
    (Raised (mkHTTPException 500
       "Error analyzing profile: Exceeded maximum retries (3) for result validation"),
     S (List.length pre)) /\
  (tool_calls pre = 0%nat -> S (List.length pre) = 4%nat).
Proof.
  intros Hgen Hmot Hpre Hq Hthree Hraw. split.
  - unfold analyze_profile, run. rewrite Hgen, Hmot.
    rewrite run_from_resume; [| exact Hpre | exact Hq | rewrite Hthree; simpl; lia].
    rewrite Hthree.
    change (0 + 3)%nat with (result_retries get_fitness_agent).
    rewrite run_from_exhausted by exact Hraw.
    reflexivity.
  - intros Hno. f_equal. rewrite <- Hthree.
    clear - Hpre Hno. unfold tool_calls, final_answers in *.
    induction pre as [| a pre IH]; [reflexivity |].
    inversion Hpre as [| ? ? Ha Hpre']; subst.
    destruct a as [d | | raw]; simpl in *;
      [discriminate Ha | discriminate Hno | f_equal; apply IH; assumption].
Qed.

Lemma analyze_profile_validation_exhausted_witness :
  analyze_profile
    (mkBackend
       (fun _ => [FinalResult zero_sets_output; CallGetMotivation;
                  FinalResult (Malformed "Field required");
                  FinalResult zero_sets_output;
                  FinalResult zero_sets_output;
                  FinalResult (Shaped sample_report)])
       (fun _ => [Quotes ["Keep going"]]))
    male_example =
    (Raised (mkHTTPException 500
       "Error analyzing profile: Exceeded maximum retries (3) for result validation"),
     5%nat).
Proof.
  apply (analyze_profile_validation_exhausted
           (mkBackend
              (fun _ => [FinalResult zero_sets_output; CallGetMotivation;
                         FinalResult (Malformed "Field required");
                         FinalResult zero_sets_output;
                         FinalResult zero_sets_output;
                         FinalResult (Shaped sample_report)])
              (fun _ => [Quotes ["Keep going"]]))
           male_example
           [FinalResult zero_sets_output; CallGetMotivation;
            FinalResult (Malformed "Field required");
            FinalResult zero_sets_output]
           [["Keep going"]] [] zero_sets_output
           [FinalResult (Shaped sample_report)]).
  - reflexivity.
  - reflexivity.
  - repeat constructor.
  - reflexivity.
  - reflexivity.
  - reflexivity.
Defined.

(** C3 (as stated, refuted): the error surfaced for a transport failure is
    not of a kind distinct from the one surfaced for a validation failure.
    Both are [HTTPException]s of status 500 that differ at most in the
    detail text, which is the message of the underlying exception: a
    transport failure carrying the message of the validation failure
    surfaces as the very same value. *)
Lemma transport_error_not_distinct :
  exists e,
    analyze_profile (answers [RequestFailed exceeded_message]) male_example =
      (Raised e, 1%nat) /\
    analyze_profile
      (answers (map FinalResult
                  [zero_sets_output; zero_sets_output; zero_sets_output;
                   zero_sets_output]))
      male_example = (Raised e, 4%nat) /\
    status_code e = 500.
Proof.
  eexists. split; [| split].
  - vm_compute. reflexivity.
  - vm_compute. reflexivity.
  - reflexivity.
Qed.

(** C3 (amended): when the first generation request fails at the transport
    level, [analyze_profile] raises at once an [HTTPException] of status 500
    whose detail is "Error analyzing profile: " followed by the message of
    the failure, after exactly one request: no retry is made, whatever the
    backend would have answered next. *)
Theorem analyze_profile_transport_failure
    (b : backend) (p : FitnessProfile) (d : string)
    (rest : list model_response) :
  generate b p = RequestFailed d :: rest ->
  analyze_profile b p =
    (Raised (mkHTTPException 500 ("Error analyzing profile: " ++ d)%string),
     1%nat).
Proof.
  intros Hgen. unfold analyze_profile, run. rewrite Hgen. reflexivity.
Qed.

Lemma analyze_profile_transport_failure_witness :
  analyze_profile
    (answers [RequestFailed "Connection error.";
              FinalResult (Shaped sample_report)])
    male_example =
    (Raised (mkHTTPException 500
               "Error analyzing profile: Connection error."), 1%nat).
Proof.
  apply (analyze_profile_transport_failure _ male_example "Connection error."
           [FinalResult (Shaped sample_report)]).
  reflexivity.
Defined.

(** * Further properties *)

(** ** White space and [strip] *)

Lemma lstrip_empty_iff (s : string) :
  PyStr.lstrip s = EmptyString <-> all_space s = true.
Proof.
  induction s as [| c s IH]; simpl.
  - tauto.
  - destruct (PyStr.isspace c); simpl.
    + exact IH.
    + split; intros H; discriminate H.
Qed.

Lemma rstrip_empty_iff (s : string) :
  PyStr.rstrip s = EmptyString <-> all_space s = true.
Proof.
  induction s as [| c s IH]; simpl.
  - tauto.
  - destruct (PyStr.rstrip s) as [| c' r] eqn:E.
    + destruct (PyStr.isspace c); simpl.
      * split; intros _; [apply IH |]; reflexivity.
      * split; intros H; discriminate H.
    + split; intros H; [discriminate H |].
      apply andb_prop in H. destruct H as [_ H].
      apply IH in H. discriminate H.
Qed.

Lemma all_space_lstrip (s : string) :
  all_space (PyStr.lstrip s) = all_space s.
Proof.
  induction s as [| c s IH]; simpl; [reflexivity |].
  destruct (PyStr.isspace c) eqn:E; simpl.
  - exact IH.
  - rewrite E. reflexivity.
Qed.

Lemma truthy_strip (s : string) :
  PyStr.truthy (PyStr.strip s) = negb (all_space s).
Proof.
  unfold PyStr.strip.
  destruct (all_space s) eqn:E.
  - rewrite <- all_space_lstrip in E. apply rstrip_empty_iff in E.
    rewrite E. reflexivity.
  - destruct (PyStr.rstrip (PyStr.lstrip s)) eqn:R; [| reflexivity].
    apply rstrip_empty_iff in R. rewrite all_space_lstrip in R. congruence.
Qed.

Lemma lstrip_app_space (ws s : string) :
  all_space ws = true -> PyStr.lstrip (ws ++ s) = PyStr.lstrip s.
Proof.
  induction ws as [| c ws IH]; simpl; intros H; [reflexivity |].
  apply andb_prop in H. destruct H as [Hc Hws].
  rewrite Hc. apply IH, Hws.
Qed.

Lemma rstrip_app_space (s ws : string) :
  all_space ws = true -> PyStr.rstrip (s ++ ws) = PyStr.rstrip s.
Proof.
  intros H. induction s as [| c s IH]; simpl.
  - apply rstrip_empty_iff, H.
  - rewrite IH. reflexivity.
Qed.

Lemma lower_app (s t : string) :
  Py.lower (s ++ t) = (Py.lower s ++ Py.lower t)%string.
Proof.
  induction s as [| c s IH]; simpl; [reflexivity |].
  rewrite IH. reflexivity.
Qed.

Lemma isspace_lower_ascii (c : ascii) :
  PyStr.isspace (Py.lower_ascii c) = PyStr.isspace c.
Proof.
  destruct c as [[] [] [] [] [] [] [] []]; vm_compute; reflexivity.
Qed.

Lemma all_space_lower (s : string) : all_space (Py.lower s) = all_space s.
Proof.
  induction s as [| c s IH]; simpl; [reflexivity |].
  rewrite isspace_lower_ascii, IH. reflexivity.
Qed.

(** ** The front end's profile *)

(** The goals text reaches the profile unchanged (it is not stripped)
    unless it holds white space only, in which case the profile has no
    goals. *)
Lemma ui_fitness_goals_blank (fitness_goals : string) :
  ui_fitness_goals fitness_goals =
    if all_space fitness_goals then None else Some fitness_goals.
Proof.
  unfold ui_fitness_goals. rewrite truthy_strip.
  destruct (all_space fitness_goals); reflexivity.
Qed.

Lemma bmr_response_activity_level (p : FitnessProfile) (r : Bmr.response) :
  calculate_bmr_endpoint p = inl r ->
  Bmr.activity_level r = ActivityLevel_value (activity_level p).
Proof.
  unfold calculate_bmr_endpoint. intros H.
  destruct (bmr_response p) as [r' | e] eqn:E; [| discriminate H].
  injection H as ->. unfold bmr_response in E.
  apply bind_Ok in E. destruct E as (b & _ & E).
  apply bind_Ok in E. destruct E as (r2 & _ & E).
  apply bind_Ok in E. destruct E as (r0 & _ & E).
  apply bind_Ok in E. destruct E as (l & _ & E).
  apply bind_Ok in E. destruct E as (rl & _ & E).
  apply bind_Ok in E. destruct E as (g & _ & E).
  apply bind_Ok in E. destruct E as (rg & _ & E).
  apply Ok_inj in E. subst r. reflexivity.
Qed.

(** [ActivityLevel(v)] is the inverse of [.value]: it finds a member only
    for that member's own value, and finds every member from its value.  So
    the activity_level text in an answer of /bmr reads back as the level
    of the profile. *)
Theorem ActivityLevel_value_round_trip :
  (forall a : ActivityLevel,
      ActivityLevel_of_value (ActivityLevel_value a) = Some a) /\
  (forall (v : string) (a : ActivityLevel),
      ActivityLevel_of_value v = Some a <-> ActivityLevel_value a = v) /\
  (forall (p : FitnessProfile) (r : Bmr.response),
      calculate_bmr_endpoint p = inl r ->
      ActivityLevel_of_value (Bmr.activity_level r) = Some (activity_level p)).
Proof.
  assert (Hrt : forall a, ActivityLevel_of_value (ActivityLevel_value a) = Some a)
    by (intros []; reflexivity).
  split; [exact Hrt |]. split.
  - intros v a. split.
    + unfold ActivityLevel_of_value. intros H.
      apply find_some in H. destruct H as [_ H].
      apply String.eqb_eq in H. exact H.
    + intros <-. apply Hrt.
  - intros p r H. rewrite (bmr_response_activity_level _ _ H). apply Hrt.
Qed.

Lemma ActivityLevel_value_round_trip_witness :
  ActivityLevel_of_value "moderately_active" = Some MODERATELY_ACTIVE.
Proof.
  apply (proj2 (proj2 ActivityLevel_value_round_trip) male_example
           (Bmr.mkResponse 2555.56 2556 2056 3056 "moderately_active")).
  vm_compute. reflexivity.
Defined.

Lemma Prim2SF_30 : exists m e, Prim2SF 30 = S754_finite false m e.
Proof. eexists _, _. vm_compute. reflexivity. Qed.

Lemma Prim2SF_100 : exists m e, Prim2SF 100 = S754_finite false m e.
Proof. eexists _, _. vm_compute. reflexivity. Qed.

(** A float at least as large as a positive finite float is positive. *)
Lemma leb_positive (c x : float) :
  (exists m e, Prim2SF c = S754_finite false m e) ->
  (c <=? x)%float = true -> (0 <? x)%float = true.
Proof.
  intros (m & e & Hc). rewrite leb_spec, ltb_spec, Hc.
  change (Prim2SF 0) with (S754_zero false).
  destruct (Prim2SF x) as [s | s | | s m' e']; try destruct s;
    simpl; intros H; try reflexivity; discriminate H.
Qed.

Lemma activity_option_level (activity_display : string) :
  In activity_display activity_options ->
  exists value level,
    str_dict_get ACTIVITY_LEVELS activity_display = Some value /\
    ActivityLevel_of_value value = Some level /\
    ActivityLevel_value level = value.
Proof.
  intros H. simpl in H.
  destruct H as [<- | [<- | [<- | [<- | [<- | []]]]]];
    eexists _, _; (split; [reflexivity | split; reflexivity]).
Qed.

(** Whatever the widgets hold within their ranges (age 13..120, weight
    30..300, height 100..250, one of the five activity options), building
    the profile succeeds: no [KeyError], [ValueError] or validation error.
    The profile has the widgets' values, the level whose value the option
    maps to, and the goals text unless it is blank. *)
Theorem ui_profile_within_ranges (age : Z) (weight height : float)
    (gender activity_display fitness_goals : string) :
  widget_ranges age weight height = true ->
  In activity_display activity_options ->
  exists level,
    str_dict_get ACTIVITY_LEVELS activity_display =
      Some (ActivityLevel_value level) /\
    ui_profile age weight height gender activity_display fitness_goals =
      inl (mkFitnessProfile age weight height gender level
             (if all_space fitness_goals then None else Some fitness_goals)) /\
    valid_profile
      (mkFitnessProfile age weight height gender level
         (if all_space fitness_goals then None else Some fitness_goals)) = true.
Proof.
  intros Hr Hin.
  destruct (activity_option_level _ Hin) as (value & level & Hget & Hof & Hval).
  exists level. rewrite Hval.
  unfold widget_ranges in Hr.
  rewrite !andb_true_iff in Hr.
  destruct Hr as [[[[[Ha1 Ha2] Hw1] _] Hh1] _].
  pose proof (leb_positive _ _ Prim2SF_30 Hw1) as Hw.
  pose proof (leb_positive _ _ Prim2SF_100 Hh1) as Hh.
  assert (Hv : (13 <=? age) && (age <=? 120) && (0 <? weight)%float &&
               (0 <? height)%float = true)
    by (rewrite Ha1, Ha2, Hw, Hh; reflexivity).
  split; [exact Hget |]. split; [| exact Hv].
  unfold ui_profile. rewrite Hget, Hof.
  unfold FitnessProfile_new.
  apply FitnessProfile_errors_nil in Hv. rewrite Hv.
  rewrite ui_fitness_goals_blank. reflexivity.
Qed.

Lemma ui_profile_within_ranges_witness :
  exists level,
    str_dict_get ACTIVITY_LEVELS "Very Active (hard exercise 6-7 days/week)" =
      Some (ActivityLevel_value level) /\
    ui_profile 45 82.5 180 "other" "Very Active (hard exercise 6-7 days/week)"
      "  " =
      inl (mkFitnessProfile 45 82.5 180 "other" level None) /\
    valid_profile (mkFitnessProfile 45 82.5 180 "other" level None) = true.
Proof.
  apply (ui_profile_within_ranges 45 82.5 180 "other"
           "Very Active (hard exercise 6-7 days/week)" "  ").
  - vm_compute. reflexivity.
  - simpl. auto.
Defined.

(** ** The grouping of meals under their headings *)

Lemma text_eqb_eq (a b : PyStr.text) : PyStr.text_eqb a b = true <-> a = b.
Proof.
  unfold PyStr.text_eqb.
  destruct (list_eq_dec N.eq_dec a b); split; intros H;
    try reflexivity; try assumption; try discriminate H; contradiction.
Qed.

Lemma text_eqb_refl (a : PyStr.text) : PyStr.text_eqb a a = true.
Proof. apply text_eqb_eq. reflexivity. Qed.

Lemma text_eqb_neq (a b : PyStr.text) : PyStr.text_eqb a b = false <-> a <> b.
Proof.
  rewrite <- text_eqb_eq. destruct (PyStr.text_eqb a b); split; intros H;
    try reflexivity; try discriminate; congruence.
Qed.

Lemma text_eqb_sym (a b : PyStr.text) :
  PyStr.text_eqb a b = PyStr.text_eqb b a.
Proof.
  destruct (PyStr.text_eqb b a) eqn:E.
  - apply text_eqb_eq. apply text_eqb_eq in E. congruence.
  - apply text_eqb_neq. apply text_eqb_neq in E. congruence.
Qed.

Lemma add_meal_get_same (k : PyStr.text) (m : Meal.t) (g : meal_groups) :
  group_of (add_meal k m g) k = (group_of g k ++ [m])%list.
Proof.
  unfold group_of.
  induction g as [| [t ms] g IH]; simpl.
  - rewrite text_eqb_refl. reflexivity.
  - destruct (PyStr.text_eqb t k) eqn:E; simpl; rewrite E; [reflexivity | exact IH].
Qed.

Lemma add_meal_get_other (k k' : PyStr.text) (m : Meal.t) (g : meal_groups) :
  PyStr.text_eqb k k' = false ->
  text_dict_get (add_meal k m g) k' = text_dict_get g k'.
Proof.
  intros Hk.
  induction g as [| [t ms] g IH]; simpl.
  - rewrite Hk. reflexivity.
  - destruct (PyStr.text_eqb t k) eqn:E; simpl.
    + apply text_eqb_eq in E. subst t. rewrite Hk. reflexivity.
    + destruct (PyStr.text_eqb t k'); [reflexivity | exact IH].
Qed.

Lemma add_meal_nonempty (k : PyStr.text) (m : Meal.t) (g : meal_groups) :
  Forall (fun kv => snd kv <> []) g ->
  Forall (fun kv => snd kv <> []) (add_meal k m g).
Proof.
  induction g as [| [t ms] g IH]; simpl; intros H.
  - constructor; [discriminate | constructor].
  - inversion H as [| ? ? Hms Hg]; subst.
    destruct (PyStr.text_eqb t k); constructor; simpl; auto.
    destruct ms; discriminate.
Qed.

Lemma text_dict_get_In {V : Type} (d : list (PyStr.text * V)) (k : PyStr.text) (v : V) :
  text_dict_get d k = Some v -> In (k, v) d.
Proof.
  induction d as [| [k' v'] d IH]; simpl; intros H; [discriminate H |].
  destruct (PyStr.text_eqb k' k) eqn:E.
  - apply text_eqb_eq in E. injection H as ->. subst. now left.
  - right. apply IH, H.
Qed.

Lemma fold_add_meal_group (plan : list Meal.t) (g : meal_groups) (k : PyStr.text) :
  group_of
    (fold_left (fun g meal => add_meal (PyStr.title (Meal.timing meal)) meal g)
       plan g) k =
  (group_of g k ++ filter (fun m => PyStr.text_eqb (heading m) k) plan)%list.
Proof.
  revert g. induction plan as [| m plan IH]; intros g; simpl.
  - rewrite app_nil_r. reflexivity.
  - rewrite IH. fold (heading m).
    destruct (PyStr.text_eqb (heading m) k) eqn:E.
    + apply text_eqb_eq in E. subst k.
      rewrite add_meal_get_same, <- app_assoc. reflexivity.
    + unfold group_of at 1. rewrite (add_meal_get_other _ _ _ _ E).
      reflexivity.
Qed.

Lemma fold_add_meal_nonempty (plan : list Meal.t) (g : meal_groups) :
  Forall (fun kv => snd kv <> []) g ->
  Forall (fun kv => snd kv <> [])
    (fold_left (fun g meal => add_meal (PyStr.title (Meal.timing meal)) meal g)
       plan g).
Proof.
  revert g. induction plan as [| m plan IH]; intros g H; simpl; [exact H |].
  apply IH, add_meal_nonempty, H.
Qed.

(** The titling model on strings whose Python result is well known:
    "they're" gives "They'Re", "pre-workout snack" gives "Pre-Workout
    Snack", the sharp s gives "Ss", and "déjeuner" and "DÉJEUNER" both give
    "Déjeuner". *)
Lemma title_known_values :
  PyStr.title "they're" = PyStr.code_points "They'Re" /\
  PyStr.title "pre-workout snack" = PyStr.code_points "Pre-Workout Snack" /\
  PyStr.title "LUNCH" = PyStr.code_points "Lunch" /\
  PyStr.title (String (ascii_of_nat 223) EmptyString) = [83%N; 115%N] /\
  PyStr.title (String (ascii_of_nat 255) EmptyString) = [376%N] /\
  PyStr.title dejeuner_lower = [68; 233; 106; 101; 117; 110; 101; 114]%N /\
  PyStr.title dejeuner_upper = [68; 233; 106; 101; 117; 110; 101; 114]%N /\
  List.length
    (meals_by_timing
       [Meal.mk "Quiche" 450 20 30 25 dejeuner_lower None;
        Meal.mk "Salade" 200 5 10 12 dejeuner_upper None]) = 1%nat.
Proof.
  repeat (split; [vm_compute; reflexivity |]). vm_compute. reflexivity.
Qed.

(** The list under a heading is exactly the meals of the plan whose timing
    has that heading, in the order of the plan; a heading no meal has is
    not in the dict, so no section is empty. *)
Theorem meals_by_timing_lookup (nutrition_plan : list Meal.t) (k : PyStr.text) :
  text_dict_get (meals_by_timing nutrition_plan) k =
    match filter (fun m => PyStr.text_eqb (heading m) k) nutrition_plan with
    | [] => None
    | meals => Some meals
    end.
Proof.
  pose proof (fold_add_meal_group nutrition_plan [] k) as Hg.
  pose proof (fold_add_meal_nonempty nutrition_plan [] (Forall_nil _)) as Hn.
  fold (meals_by_timing nutrition_plan) in Hg, Hn.
  simpl in Hg. unfold group_of in Hg.
  destruct (text_dict_get (meals_by_timing nutrition_plan) k) as [ms |] eqn:E.
  - rewrite <- Hg.
    apply text_dict_get_In in E.
    rewrite Forall_forall in Hn. specialize (Hn _ E). simpl in Hn.
    destruct ms; [congruence | reflexivity].
  - rewrite <- Hg. reflexivity.
Qed.

Lemma add_meal_keys (k : PyStr.text) (m : Meal.t) (g : meal_groups) :
  map fst (add_meal k m g) =
    if existsb (PyStr.text_eqb k) (map fst g) then map fst g
    else (map fst g ++ [k])%list.
Proof.
  induction g as [| [t ms] g IH]; simpl; [reflexivity |].
  rewrite (text_eqb_sym k t).
  destruct (PyStr.text_eqb t k); simpl; [reflexivity |].
  rewrite IH. destruct (existsb (PyStr.text_eqb k) (map fst g)); reflexivity.
Qed.

Lemma filter_filter {A : Type} (p q : A -> bool) (l : list A) :
  filter p (filter q l) = filter (fun x => q x && p x) l.
Proof.
  induction l as [| x l IH]; simpl; [reflexivity |].
  destruct (q x); simpl; [destruct (p x) |]; rewrite IH; reflexivity.
Qed.

Lemma existsb_eqb_app (y : PyStr.text) (ks : list PyStr.text)
    (k : PyStr.text) :
  existsb (PyStr.text_eqb y) (ks ++ [k]) =
    existsb (PyStr.text_eqb y) ks || PyStr.text_eqb k y.
Proof.
  rewrite existsb_app. simpl. rewrite orb_false_r, (text_eqb_sym y k).
  reflexivity.
Qed.

Lemma fold_add_meal_keys (plan : list Meal.t) (g : meal_groups) :
  map fst
    (fold_left (fun g meal => add_meal (PyStr.title (Meal.timing meal)) meal g)
       plan g) =
  (map fst g ++
   filter (fun y => negb (existsb (PyStr.text_eqb y) (map fst g)))
     (first_occurrences (map heading plan)))%list.
Proof.
  revert g. induction plan as [| m plan IH]; intros g; simpl.
  - rewrite app_nil_r. reflexivity.
  - rewrite IH, add_meal_keys. fold (heading m).
    destruct (existsb (PyStr.text_eqb (heading m)) (map fst g)) eqn:E; simpl.
    + f_equal. rewrite filter_filter. apply filter_ext. intros y.
      destruct (PyStr.text_eqb (heading m) y) eqn:Ey; simpl; [| reflexivity].
      apply text_eqb_eq in Ey. subst y. rewrite E. reflexivity.
    + rewrite <- app_assoc. simpl. f_equal. f_equal.
      rewrite filter_filter. apply filter_ext. intros y.
      rewrite existsb_eqb_app.
      destruct (PyStr.text_eqb (heading m) y); simpl.
      * rewrite orb_true_r. reflexivity.
      * rewrite orb_false_r. reflexivity.
Qed.

Lemma first_occurrences_In (l : list PyStr.text) (x : PyStr.text) :
  In x (first_occurrences l) <-> In x l.
Proof.
  induction l as [| y l IH]; simpl; [tauto |].
  rewrite filter_In, IH.
  destruct (PyStr.text_eqb y x) eqn:E.
  - apply text_eqb_eq in E. subst. simpl. intuition discriminate.
  - apply text_eqb_neq in E. simpl. intuition congruence.
Qed.

Lemma NoDup_filter {A : Type} (p : A -> bool) (l : list A) :
  NoDup l -> NoDup (filter p l).
Proof.
  induction 1 as [| x l Hx Hl IH]; simpl; [constructor |].
  destruct (p x); [| exact IH].
  constructor; [| exact IH].
  rewrite filter_In. tauto.
Qed.

Lemma first_occurrences_NoDup (l : list PyStr.text) : NoDup (first_occurrences l).
Proof.
  induction l as [| x l IH]; simpl; constructor.
  - rewrite filter_In, text_eqb_refl. simpl. intros [_ H]. discriminate H.
  - apply NoDup_filter, IH.
Qed.

(** The section headings are the titled timings of the plan, each once, in
    the order of their first meal. *)
Theorem meals_by_timing_headings (nutrition_plan : list Meal.t) :
  map fst (meals_by_timing nutrition_plan) =
    first_occurrences (map heading nutrition_plan) /\
  NoDup (map fst (meals_by_timing nutrition_plan)) /\
  (forall k, In k (map fst (meals_by_timing nutrition_plan)) <->
             exists m, In m nutrition_plan /\ heading m = k).
Proof.
  assert (H : map fst (meals_by_timing nutrition_plan) =
              first_occurrences (map heading nutrition_plan)).
  { unfold meals_by_timing. rewrite fold_add_meal_keys. simpl.
    induction (first_occurrences (map heading nutrition_plan)) as [| x l IH];
      simpl; [reflexivity | f_equal; exact IH]. }
  split; [exact H |]. rewrite H. split.
  - apply first_occurrences_NoDup.
  - intros k. rewrite first_occurrences_In, in_map_iff.
    split; intros (m & Hm1 & Hm2); exists m; split; assumption.
Qed.

Lemma add_meal_concat (k : PyStr.text) (m : Meal.t) (g : meal_groups) :
  Permutation (List.concat (map snd (add_meal k m g)))
              (List.concat (map snd g) ++ [m]).
Proof.
  induction g as [| [t ms] g IH]; simpl.
  - apply Permutation_refl.
  - destruct (PyStr.text_eqb t k); simpl.
    + rewrite <- !app_assoc.
      apply Permutation_app_head, Permutation_app_comm.
    + rewrite <- app_assoc. apply Permutation_app_head, IH.
Qed.

Lemma fold_add_meal_concat (plan : list Meal.t) (g : meal_groups) :
  Permutation
    (List.concat (map snd
       (fold_left
          (fun g meal => add_meal (PyStr.title (Meal.timing meal)) meal g)
          plan g)))
    (List.concat (map snd g) ++ plan).
Proof.
  revert g. induction plan as [| m plan IH]; intros g; simpl.
  - rewrite app_nil_r. apply Permutation_refl.
  - eapply Permutation_trans; [apply IH |].
    eapply Permutation_trans;
      [apply Permutation_app_tail, add_meal_concat |].
    rewrite <- app_assoc. apply Permutation_refl.
Qed.

(** The sections, taken together, hold the meals of the plan: each meal
    once, none lost, none added. *)
Theorem meals_by_timing_complete (nutrition_plan : list Meal.t) :
  Permutation (List.concat (map snd (meals_by_timing nutrition_plan)))
    nutrition_plan.
Proof.
  apply (fold_add_meal_concat nutrition_plan []).
Qed.

Lemma meals_by_timing_group_of (nutrition_plan : list Meal.t) (k : PyStr.text) :
  group_of (meals_by_timing nutrition_plan) k =
    filter (fun m => PyStr.text_eqb (heading m) k) nutrition_plan.
Proof.
  apply (fold_add_meal_group nutrition_plan [] k).
Qed.

Lemma upper_case_pair (a : ascii) :
  is_upper a = true ->
  PyStr.title_full (Py.lower_ascii a) = PyStr.title_full a /\
  PyStr.lower_full (Py.lower_ascii a) = PyStr.lower_full a /\
  PyStr.is_cased (Py.lower_ascii a) = PyStr.is_cased a.
Proof.
  destruct a as [[] [] [] [] [] [] [] []]; vm_compute; intros H;
    try discriminate H; repeat split; reflexivity.
Qed.

Lemma same_letter_title (a b : ascii) :
  same_letter a b = true ->
  PyStr.title_full a = PyStr.title_full b /\
  PyStr.lower_full a = PyStr.lower_full b /\
  PyStr.is_cased a = PyStr.is_cased b.
Proof.
  unfold same_letter. intros H.
  apply orb_prop in H. destruct H as [H | H].
  - apply orb_prop in H. destruct H as [H | H].
    + apply Ascii.eqb_eq in H. subst. repeat split; reflexivity.
    + apply andb_prop in H. destruct H as [Hu H].
      apply Ascii.eqb_eq in H. subst b.
      destruct (upper_case_pair a Hu) as (H1 & H2 & H3).
      repeat split; congruence.
  - apply andb_prop in H. destruct H as [Hu H].
    apply Ascii.eqb_eq in H. subst a.
    destruct (upper_case_pair b Hu) as (H1 & H2 & H3).
    repeat split; congruence.
Qed.

Lemma differ_only_in_case_title (s t : string) (previous_is_cased : bool) :
  differ_only_in_case s t = true ->
  PyStr.title_from previous_is_cased s = PyStr.title_from previous_is_cased t.
Proof.
  revert t previous_is_cased.
  induction s as [| a s IH]; intros [| b t] prev H; simpl in H;
    try discriminate H; try reflexivity.
  apply andb_prop in H. destruct H as [Hab Hst].
  cbn [PyStr.title_from].
  destruct (same_letter_title _ _ Hab) as (Ht & Hl & Hc).
  rewrite Ht, Hl, Hc, (IH _ _ Hst). reflexivity.
Qed.

(** Meals whose timings (ASCII text) differ only in letter case are shown
    under one heading: "breakfast", "Breakfast" and "BREAKFAST" share a
    section. *)
Theorem meals_by_timing_case_insensitive (m1 m2 : Meal.t) :
  PyStr.is_ascii (Meal.timing m1) = true ->
  differ_only_in_case (Meal.timing m1) (Meal.timing m2) = true ->
  heading m1 = heading m2 /\
  forall nutrition_plan,
    In m1 nutrition_plan -> In m2 nutrition_plan ->
    In m1 (group_of (meals_by_timing nutrition_plan) (heading m1)) /\
    In m2 (group_of (meals_by_timing nutrition_plan) (heading m1)).
Proof.
  intros _ H.
  assert (Hh : heading m1 = heading m2)
    by (apply differ_only_in_case_title, H).
  split; [exact Hh |].
  intros plan H1 H2. rewrite meals_by_timing_group_of, !filter_In.
  split; (split; [assumption |]).
  - apply text_eqb_refl.
  - rewrite Hh. apply text_eqb_refl.
Qed.

Lemma meals_by_timing_case_insensitive_witness :
  heading (Meal.mk "Oatmeal" 350 12 60 6 "breakfast" None) =
  heading (Meal.mk "Eggs" 300 20 2 22 "BREAKFAST" None) /\
  heading (Meal.mk "Oatmeal" 350 12 60 6 "breakfast" None) =
    PyStr.code_points "Breakfast".
Proof.
  split.
  - apply (meals_by_timing_case_insensitive
             (Meal.mk "Oatmeal" 350 12 60 6 "breakfast" None)
             (Meal.mk "Eggs" 300 20 2 22 "BREAKFAST" None));
      reflexivity.
  - reflexivity.
Defined.

(** ** Genders other than "male" *)

Lemma lower_length (s : string) : String.length (Py.lower s) = String.length s.
Proof.
  induction s as [| c s IH]; simpl; [reflexivity | rewrite IH; reflexivity].
Qed.

(** Every gender string that is not "male" up to letter case gets the
    [- 161] form, the one "female" gets; the string is compared as it is,
    so a string of another length (" male", "m", the empty string) is among
    them. *)
Theorem calculate_bmr_other_genders (p : FitnessProfile) (g : string) :
  String.length g <> 4%nat \/ Py.lower g <> "male" ->
  calculate_bmr (with_gender p g) = calculate_bmr (with_gender p "female").
Proof.
  intros H.
  assert (Hg : String.eqb (Py.lower g) "male" = false).
  { apply String.eqb_neq. destruct H as [H | H]; [| exact H].
    intros E. apply H. rewrite <- lower_length, E. reflexivity. }
  unfold calculate_bmr, base_bmr, with_gender. simpl.
  rewrite Hg. reflexivity.
Qed.

Lemma calculate_bmr_other_genders_witness :
  calculate_bmr (with_gender male_example " male") =
    calculate_bmr (with_gender male_example "female") /\
  calculate_bmr (with_gender male_example "other") =
    calculate_bmr (with_gender male_example "female").
Proof.
  split.
  - apply (calculate_bmr_other_genders male_example " male").
    left. simpl. lia.
  - apply (calculate_bmr_other_genders male_example "other").
    left. simpl. lia.
Defined.

(** ** [POST /analyze] end to end *)

(** For a body that builds a profile, [POST /analyze] answers with the
    report of the run unchanged, or, on any failure of the run, with status
    500 and the detail "500: Error analyzing profile: " followed by the
    exception's message: the handler wraps the [HTTPException] of
    [analyze_profile] once more, so its status is repeated in the text.  The
    number of generation requests is that of the run. *)
Theorem post_analyze_detail (b : backend) (age : Z) (weight height : float)
    (gender : string) (level : ActivityLevel) (goals : option string)
    (p : FitnessProfile) :
  FitnessProfile_new age weight height gender level goals = Ok p ->
  post_analyze b age weight height gender level goals =
    match run get_fitness_agent b p with
    | (Returned r, n) => (Returned r, n)
    | (Raised e, n) =>
        (Raised (mkHTTPException 500
           ("500: Error analyzing profile: " ++ exn_message e)%string), n)
    | (Awaiting, n) => (Awaiting, n)
    end.
Proof.
  intros Hp. unfold post_analyze. rewrite Hp.
  unfold analyze_fitness, analyze_profile.
  destruct (run get_fitness_agent b p) as [[r | e |] n]; reflexivity.
Qed.

Lemma post_analyze_detail_witness :
  post_analyze (answers [RequestFailed "Connection error."])
    30 70 175 "male" MODERATELY_ACTIVE None =
    (Raised (mkHTTPException 500
       "500: Error analyzing profile: Connection error."), 1%nat).
Proof.
  apply (post_analyze_detail (answers [RequestFailed "Connection error."])
           30 70 175 "male" MODERATELY_ACTIVE None male_example).
  vm_compute. reflexivity.
Defined.

(** ** The front end's API key *)

(** A key that is present but empty passes [check_api_key], so the
    analysis button is enabled, yet the first analysis fails on it with
    "Error analyzing profile: OpenAI API key not found" before any
    generation request.  An empty secret has this effect even when the
    environment variable holds a key, since the secret is looked up
    first. *)
Theorem empty_api_key_passes_check (k : key_sources) (b : backend)
    (p : FitnessProfile) :
  secret k = Some EmptyString \/
  (secret k = None /\ environ k = Some EmptyString) ->
  check_api_key k = true /\
  ui_analyze_profile k None b p =
    (Raised "Error analyzing profile: OpenAI API key not found", 0%nat, None).
Proof.
  intros H.
  assert (Hk : get_openai_api_key k = Some EmptyString).
  { unfold get_openai_api_key.
    destruct H as [-> | [-> ->]]; reflexivity. }
  unfold check_api_key, ui_analyze_profile, ui_get_fitness_agent.
  rewrite Hk. split; reflexivity.
Qed.

Lemma empty_api_key_passes_check_witness :
  check_api_key (mkKeySources (Some EmptyString) (Some "sk-live")) = true /\
  ui_analyze_profile (mkKeySources (Some EmptyString) (Some "sk-live")) None
    (answers [FinalResult (Shaped sample_report)]) male_example =
    (Raised "Error analyzing profile: OpenAI API key not found", 0%nat, None).
Proof.
  apply (empty_api_key_passes_check
           (mkKeySources (Some EmptyString) (Some "sk-live"))).
  left. reflexivity.
Defined.

(** ** The launcher's check of the [.env] file *)

Lemma prefix_iff (n s : string) :
  String.prefix n s = true <-> exists suf, s = (n ++ suf)%string.
Proof.
  revert s. induction n as [| a n IH]; intros s.
  - split; [intros _; exists s; reflexivity |].
    intros _. destruct s; reflexivity.
  - destruct s as [| c s]; simpl.
    + split; [intros H; discriminate H | intros [suf H]; discriminate H].
    + destruct (Ascii.ascii_dec a c) as [-> | Hne].
      * rewrite IH. split; intros [suf H]; exists suf.
        -- rewrite H. reflexivity.
        -- injection H as H. exact H.
      * split; [intros H; discriminate H |].
        intros [suf H]. injection H as H _. congruence.
Qed.

Lemma contains_iff (n s : string) :
  PyStr.contains n s = true <->
  exists pre suf, s = (pre ++ n ++ suf)%string.
Proof.
  induction s as [| c s IH].
  - change (PyStr.contains n EmptyString)
      with (String.prefix n EmptyString || false).
    rewrite orb_false_r, prefix_iff. split.
    + intros [suf H]. exists EmptyString, suf. exact H.
    + intros (pre & suf & H). destruct pre as [| a pre]; [| discriminate H].
      exists suf. exact H.
  - change (PyStr.contains n (String c s))
      with (String.prefix n (String c s) || PyStr.contains n s).
    rewrite orb_true_iff, IH, prefix_iff. split.
    + intros [[suf H] | (pre & suf & H)].
      * exists EmptyString, suf. exact H.
      * exists (String c pre), suf. simpl. rewrite H. reflexivity.
    + intros (pre & suf & H). destruct pre as [| a pre].
      * left. exists suf. exact H.
      * right. simpl in H. injection H as _ H. exists pre, suf. exact H.
Qed.

(** [check_env_file] accepts exactly a readable file in which the text
    "OPENAI_API_KEY=" occurs somewhere and the placeholder
    "your_openai_api_key_here" occurs nowhere.  What follows the "=" is not
    looked at, and a placeholder anywhere in the file rejects it. *)
Theorem check_env_file_spec (f : env_file) :
  check_env_file f = true <->
  exists content,
    f = Content content /\
    (exists pre suf, content = (pre ++ "OPENAI_API_KEY=" ++ suf)%string) /\
    ~ (exists pre suf,
          content = (pre ++ "your_openai_api_key_here" ++ suf)%string).
Proof.
  destruct f as [| err | content]; simpl.
  - split; [intros H; discriminate H | intros (c & H & _); discriminate H].
  - split; [intros H; discriminate H | intros (c & H & _); discriminate H].
  - rewrite andb_true_iff, negb_true_iff, <- not_true_iff_false, !contains_iff.
    split.
    + intros [H1 H2]. exists content. tauto.
    + intros (c & Hc & H1 & H2). injection Hc as <-. tauto.
Qed.

(** ** The launcher *)

Lemma monitor_alive_ticks (n : nat) (evs : list monitor_event) :
  monitor (repeat (Tick true true) n ++ evs) = monitor evs.
Proof.
  induction n as [| n IH]; simpl; [reflexivity | exact IH].
Qed.

Lemma monitor_no_exit (evs : list monitor_event) (code : Z)
    (acts : list action) :
  monitor evs <> (Exit code, acts).
Proof.
  induction evs as [| [api ui | api ui] evs IH]; simpl.
  - discriminate.
  - destruct api; simpl; [| discriminate].
    destruct ui; simpl; [exact IH | discriminate].
  - discriminate.
Qed.

Lemma left_running_asked (c : child) (asked log : list action) :
  (asked = [] \/ asked = [Ask]) ->
  left_running c (asked ++ log) = left_running c log.
Proof.
  intros [-> | ->]; reflexivity.
Qed.

(** Whenever the launcher ends with [sys.exit], the code is 1 and no child
    it got running is left without [terminate()]: it exits before starting
    anything, or after the API server failed to stay up, or after sending
    [terminate()] to the API server because Streamlit failed to stay up.
    When a dependency is missing nothing is started and nothing is asked. *)
Theorem launcher_exit_leaves_no_child (w : launch) (code : Z)
    (log : list action) :
  launcher_main w = (Exit code, log) ->
  code = 1 /\
  (forall c, left_running c log = false) /\
  (dependencies_installed w = false -> log = []).
Proof.
  unfold launcher_main.
  destruct (dependencies_installed w); simpl.
  2: { intros H. injection H as <- <-. repeat split; intros []; reflexivity. }
  set (asked := if check_env_file (dotenv w) then [] else [Ask]).
  assert (Hasked : asked = [] \/ asked = [Ask])
    by (subst asked; destruct (check_env_file (dotenv w)); auto).
  destruct (negb (check_env_file (dotenv w)) && declined (answer w)).
  { intros H. injection H as <- <-. repeat split; try discriminate.
    intros c. rewrite <- (app_nil_r asked), left_running_asked by exact Hasked.
    destruct c; reflexivity. }
  destruct (api_survives_start w); simpl.
  2: { intros H. injection H as <- <-. repeat split; try discriminate.
       intros c. rewrite <- (app_nil_r asked), left_running_asked by exact Hasked.
       destruct c; reflexivity. }
  destruct (ui_survives_start w); simpl.
  2: { intros H. injection H as <- <-. repeat split; try discriminate.
       intros c. rewrite left_running_asked by exact Hasked.
       destruct c; reflexivity. }
  destruct (monitor (events w)) as [fin acts] eqn:E.
  intros H. injection H as -> _.
  exfalso. exact (monitor_no_exit _ _ _ E).
Qed.

Lemma launcher_exit_leaves_no_child_witness :
  left_running ApiServer [Ask; Started ApiServer; Terminate ApiServer] = false.
Proof.
  apply (launcher_exit_leaves_no_child
           (mkLaunch true Missing " Y " true false []) 1
           [Ask; Started ApiServer; Terminate ApiServer]).
  vm_compute. reflexivity.
Defined.

(** When the loop finds one child stopped, [main] returns at once and
    sends [terminate()] to nobody: the child that is still running is left
    running, whatever happens afterwards. *)
Theorem launcher_unexpected_stop (w : launch) (n : nat) (api_alive ui_alive : bool)
    (rest : list monitor_event) :
  both_started w ->
  events w = (repeat (Tick true true) n ++ Tick api_alive ui_alive :: rest)%list ->
  api_alive && ui_alive = false ->
  exists log,
    launcher_main w = (Return, log) /\
    (forall c, existsb (is_terminate_of c) log = false) /\
    left_running ApiServer log = true /\
    left_running StreamlitUI log = true.
Proof.
  intros (Hd & He & Ha & Hu) Hev Hdead.
  set (asked := if check_env_file (dotenv w) then [] else [Ask]).
  exists (asked ++ [Started ApiServer; Started StreamlitUI])%list.
  assert (Hasked : asked = [] \/ asked = [Ask])
    by (subst asked; destruct (check_env_file (dotenv w)); auto).
  split.
  - unfold launcher_main. rewrite Hd, Ha, Hu. simpl.
    assert (Hgo : negb (check_env_file (dotenv w)) && declined (answer w) = false).
    { destruct He as [-> | ->]; [reflexivity | apply andb_false_r]. }
    rewrite Hgo, Hev, monitor_alive_ticks. simpl.
    fold asked.
    destruct api_alive; simpl.
    + simpl in Hdead. subst ui_alive. reflexivity.
    + reflexivity.
  - split; [| split].
    + intros c. destruct Hasked as [-> | ->]; destruct c; reflexivity.
    + rewrite left_running_asked by exact Hasked. reflexivity.
    + rewrite left_running_asked by exact Hasked. reflexivity.
Qed.

Lemma launcher_unexpected_stop_witness :
  exists log,
    launcher_main
      (mkLaunch true (Content "OPENAI_API_KEY=sk-live") EmptyString true true
         [Tick true true; Tick false true; CtrlC false true]) = (Return, log) /\
    (forall c, existsb (is_terminate_of c) log = false) /\
    left_running ApiServer log = true /\
    left_running StreamlitUI log = true.
Proof.
  apply (launcher_unexpected_stop
           (mkLaunch true (Content "OPENAI_API_KEY=sk-live") EmptyString true
              true [Tick true true; Tick false true; CtrlC false true])
           1 false true [CtrlC false true]).
  - unfold both_started. simpl. repeat split; auto.
  - reflexivity.
  - reflexivity.
Defined.

(** On Ctrl+C during the loop each child that is still running is sent
    [terminate()] once, a child that has stopped is sent nothing, and
    [main] returns. *)
Theorem launcher_interrupt (w : launch) (n : nat) (api_alive ui_alive : bool)
    (rest : list monitor_event) :
  both_started w ->
  events w = (repeat (Tick true true) n ++ CtrlC api_alive ui_alive :: rest)%list ->
  launcher_main w =
    (Return,
     ((if check_env_file (dotenv w) then [] else [Ask]) ++
      [Started ApiServer; Started StreamlitUI] ++
      (if api_alive then [Terminate ApiServer] else []) ++
      (if ui_alive then [Terminate StreamlitUI] else []))%list) /\
  (api_alive = true -> left_running ApiServer (snd (launcher_main w)) = false) /\
  (ui_alive = true -> left_running StreamlitUI (snd (launcher_main w)) = false).
Proof.
  intros (Hd & He & Ha & Hu) Hev.
  assert (Hgo : negb (check_env_file (dotenv w)) && declined (answer w) = false).
  { destruct He as [-> | ->]; [reflexivity | apply andb_false_r]. }
  assert (Hmain : launcher_main w =
    (Return,
     ((if check_env_file (dotenv w) then [] else [Ask]) ++
      [Started ApiServer; Started StreamlitUI] ++
      (if api_alive then [Terminate ApiServer] else []) ++
      (if ui_alive then [Terminate StreamlitUI] else []))%list)).
  { unfold launcher_main. rewrite Hd, Ha, Hu. simpl.
    rewrite Hgo, Hev, monitor_alive_ticks. reflexivity. }
  rewrite Hmain. split; [reflexivity |]. simpl snd.
  split; intros Halive; rewrite left_running_asked
    by (destruct (check_env_file (dotenv w)); auto);
    subst; [destruct ui_alive | destruct api_alive]; reflexivity.
Qed.

Lemma launcher_interrupt_witness :
  launcher_main
    (mkLaunch true Missing "y" true true [Tick true true; CtrlC true true]) =
    (Return, [Ask; Started ApiServer; Started StreamlitUI;
              Terminate ApiServer; Terminate StreamlitUI]).
Proof.
  apply (launcher_interrupt
           (mkLaunch true Missing "y" true true [Tick true true; CtrlC true true])
           1 true true []).
  - unfold both_started. simpl. repeat split; auto.
  - reflexivity.
Defined.

Lemma strip_padded_char (ws1 ws2 : string) (c : ascii) :
  all_space ws1 = true -> all_space ws2 = true -> PyStr.isspace c = false ->
  PyStr.strip (ws1 ++ String c ws2) = String c EmptyString.
Proof.
  intros H1 H2 Hc. unfold PyStr.strip.
  rewrite lstrip_app_space by exact H1. simpl. rewrite Hc.
  change (String c ws2) with (String c EmptyString ++ ws2)%string.
  rewrite rstrip_app_space by exact H2. simpl. rewrite Hc. reflexivity.
Qed.

Lemma lstrip_decompose (s : string) :
  exists ws, all_space ws = true /\ s = (ws ++ PyStr.lstrip s)%string.
Proof.
  induction s as [| c s (ws & Hws & Hs)]; simpl.
  - exists EmptyString. split; reflexivity.
  - destruct (PyStr.isspace c) eqn:Ec.
    + exists (String c ws). simpl. rewrite Ec, Hws, <- Hs. split; reflexivity.
    + exists EmptyString. split; reflexivity.
Qed.

Lemma rstrip_decompose (s : string) :
  exists ws, all_space ws = true /\ s = (PyStr.rstrip s ++ ws)%string.
Proof.
  induction s as [| c s (ws & Hws & Hs)]; simpl.
  - exists EmptyString. split; reflexivity.
  - destruct (PyStr.rstrip s) as [| c' r] eqn:Er; simpl in Hs.
    + destruct (PyStr.isspace c) eqn:Ec.
      * exists (String c ws). simpl. rewrite Ec, Hws, <- Hs.
        split; reflexivity.
      * exists ws. split; [exact Hws |]. simpl. rewrite <- Hs. reflexivity.
    + exists ws. split; [exact Hws |].
      change (String c (String c' r) ++ ws)%string
        with (String c (String c' (r ++ ws)))%string.
      rewrite <- Hs. reflexivity.
Qed.

Lemma lower_app_inv (a x y : string) :
  Py.lower a = (x ++ y)%string ->
  exists a1 a2, a = (a1 ++ a2)%string /\ Py.lower a1 = x /\ Py.lower a2 = y.
Proof.
  revert a. induction x as [| c x IH]; intros a H.
  - exists EmptyString, a. repeat split. exact H.
  - destruct a as [| c' a]; simpl in H; [discriminate H |].
    injection H as Hc H.
    destruct (IH _ H) as (a1 & a2 & -> & H1 & H2).
    exists (String c' a1), a2. simpl. rewrite Hc, H1. repeat split. exact H2.
Qed.

Lemma lower_ascii_y (c : ascii) :
  Py.lower_ascii c = "y"%char -> c = "y"%char \/ c = "Y"%char.
Proof.
  destruct c as [[] [] [] [] [] [] [] []]; vm_compute; intros H;
    try discriminate H; auto.
Qed.

(** The answer to "Continue anyway?" counts as yes exactly when it is the
    letter y in either case with any white space around it; any other
    answer makes the launcher exit with code 1 before it starts a child,
    and a yes lets the launch go on to the API server. *)
Theorem launcher_confirmation (w : launch) :
  dependencies_installed w = true ->
  check_env_file (dotenv w) = false ->
  (forall a,
      declined a = false <->
      exists ws1 ws2 y,
        all_space ws1 = true /\ all_space ws2 = true /\
        (y = "y" \/ y = "Y") /\ a = (ws1 ++ y ++ ws2)%string) /\
  (declined (answer w) = true -> launcher_main w = (Exit 1, [Ask])) /\
  (declined (answer w) = false -> api_survives_start w = true ->
   ui_survives_start w = true ->
   exists fin acts,
     launcher_main w =
       (fin, (Ask :: Started ApiServer :: Started StreamlitUI :: acts))).
Proof.
  intros Hd He. split; [| split].
  - intros a. unfold declined. rewrite negb_false_iff, String.eqb_eq. split.
    + intros H.
      destruct (lstrip_decompose (Py.lower a)) as (ws1 & Hws1 & H1).
      destruct (rstrip_decompose (PyStr.lstrip (Py.lower a))) as (ws2 & Hws2 & H2).
      fold (PyStr.strip (Py.lower a)) in H2. rewrite H in H2.
      rewrite H2 in H1.
      destruct (lower_app_inv _ _ _ H1) as (a1 & a' & -> & Ha1 & Ha').
      destruct a' as [| c a2]; simpl in Ha'; [discriminate Ha' |].
      injection Ha' as Hc Ha2.
      exists a1, a2, (String c EmptyString).
      split; [rewrite <- all_space_lower, Ha1; exact Hws1 |].
      split; [rewrite <- all_space_lower, Ha2; exact Hws2 |].
      split; [| reflexivity].
      destruct (lower_ascii_y _ Hc) as [-> | ->]; auto.
    + intros (ws1 & ws2 & y & H1 & H2 & Hy & ->).
      rewrite !lower_app.
      assert (Hl : Py.lower y = "y") by (destruct Hy as [-> | ->]; reflexivity).
      rewrite Hl. simpl.
      apply strip_padded_char; try reflexivity;
        rewrite all_space_lower; assumption.
  - intros Hno. unfold launcher_main. rewrite Hd, He, Hno. reflexivity.
  - intros Hyes Ha Hu. unfold launcher_main. rewrite Hd, He, Hyes, Ha, Hu.
    simpl. destruct (monitor (events w)) as [fin acts].
    exists fin, acts. reflexivity.
Qed.

Lemma launcher_confirmation_witness :
  declined "  Y  " = false /\
  launcher_main (mkLaunch true Missing "yes" true true []) = (Exit 1, [Ask]).
Proof.
  destruct (launcher_confirmation
              (mkLaunch true Missing "yes" true true []) eq_refl eq_refl)
    as (Hiff & Hno & _).
  split.
  - apply Hiff. exists "  ", "  ", "Y". auto.
  - apply Hno. reflexivity.
Defined.

(** ** More on the orchestrator *)



(** [get_motivation] handles no error: when the motivational agent fails,
    on whichever call of the tool and whatever tool calls and invalid
    answers (within the retry allowance) came before, the analysis ends
    there with status 500 and the detail "Error analyzing profile: "
    followed by that failure's message; no further request is made. *)
Theorem analyze_profile_motivation_failure (b : backend) (p : FitnessProfile)
    (pre : list model_response) (quotes : list (list string)) (d : string)
    (rest : list model_response) (later : list motivation_response) :
  generate b p = (pre ++ CallGetMotivation :: rest)%list ->
  motivate b p = (map Quotes quotes ++ MotivationFailed d :: later)%list ->
  Forall (fun a => asks_again a = true) pre ->
  List.length quotes = tool_calls pre ->
  (final_answers pre <= 3)%nat ->
  analyze_profile b p =
    (Raised (mkHTTPException 500 ("Error analyzing profile: " ++ d)%string),
     S (List.length pre)).
Proof.
  intros Hg Hm Hpre Hq Hr. unfold analyze_profile, run.
  rewrite Hg, Hm.
  rewrite run_from_resume; [| exact Hpre | exact Hq | simpl; lia].
  reflexivity.
Qed.

Lemma analyze_profile_motivation_failure_witness :
  analyze_profile
    (mkBackend
       (fun _ => [CallGetMotivation; FinalResult zero_sets_output;
                  CallGetMotivation; FinalResult (Shaped sample_report)])
       (fun _ => [Quotes ["Keep going"]; MotivationFailed "Rate limit reached"]))
    male_example =
    (Raised (mkHTTPException 500
               "Error analyzing profile: Rate limit reached"), 3%nat).
Proof.
  apply (analyze_profile_motivation_failure
           (mkBackend
              (fun _ => [CallGetMotivation; FinalResult zero_sets_output;
                         CallGetMotivation; FinalResult (Shaped sample_report)])
              (fun _ => [Quotes ["Keep going"];
                         MotivationFailed "Rate limit reached"]))
           male_example
           [CallGetMotivation; FinalResult zero_sets_output]
           [["Keep going"]] "Rate limit reached"
           [FinalResult (Shaped sample_report)] []).
  - reflexivity.
  - reflexivity.
  - repeat constructor.
  - reflexivity.
  - vm_compute. lia.
Defined.

(** ** The prompt of the motivation tool *)

Lemma replace_char_absent (old new : ascii) (s : string) :
  old <> new ->
  PyStr.contains (String old EmptyString) (replace_char old new s) = false.
Proof.
  intros Hne. induction s as [| c s IH].
  - reflexivity.
  - change (replace_char old new (String c s))
      with (String (if Ascii.eqb c old then new else c) (replace_char old new s)).
    change (PyStr.contains (String old EmptyString) (String ?x ?r))
      with (String.prefix (String old EmptyString) (String x r) ||
            PyStr.contains (String old EmptyString) r).
    rewrite IH, orb_false_r. simpl.
    destruct (Ascii.ascii_dec old (if Ascii.eqb c old then new else c))
      as [E | E]; [| reflexivity].
    exfalso. destruct (Ascii.eqb c old) eqn:Ec.
    + apply Hne, E.
    + apply Ascii.eqb_neq in Ec. congruence.
Qed.

Lemma replace_char_length (old new : ascii) (s : string) :
  String.length (replace_char old new s) = String.length s.
Proof.
  induction s as [| c s IH]; simpl; [reflexivity | rewrite IH; reflexivity].
Qed.

(** In the prompt sent to the motivational agent the activity level is
    written without underscores, and changing its spaces back to
    underscores gives the level's value again; the goals are the profile's
    own text whenever it is not empty, and "general fitness improvement"
    when the profile has none or an empty text, so the goals are never
    empty. *)
Theorem motivation_prompt_phrases (profile : FitnessProfile) :
  PyStr.contains "_" (activity_phrase profile) = false /\
  String.length (activity_phrase profile) =
    String.length (ActivityLevel_value (activity_level profile)) /\
  replace_char " " "_" (activity_phrase profile) =
    ActivityLevel_value (activity_level profile) /\
  (forall goals,
      fitness_goals profile = Some goals -> goals <> EmptyString ->
      goals_phrase profile = goals) /\
  (fitness_goals profile = None \/ fitness_goals profile = Some EmptyString ->
   goals_phrase profile = "general fitness improvement") /\
  PyStr.truthy (goals_phrase profile) = true.
Proof.
  split; [| split; [| split; [| split; [| split]]]].
  - apply replace_char_absent. discriminate.
  - apply replace_char_length.
  - unfold activity_phrase. destruct (activity_level profile); reflexivity.
  - intros goals Hg Hne. unfold goals_phrase. rewrite Hg.
    destruct goals; [congruence | reflexivity].
  - unfold goals_phrase. intros [-> | ->]; reflexivity.
  - unfold goals_phrase.
    destruct (fitness_goals profile) as [[| c g] |]; reflexivity.
Qed.

Lemma motivation_prompt_phrases_witness :
  goals_phrase
    (mkFitnessProfile 30 70 175 "male" MODERATELY_ACTIVE
       (Some "Build muscle and lose fat")) = "Build muscle and lose fat" /\
  goals_phrase
    (mkFitnessProfile 30 70 175 "male" MODERATELY_ACTIVE (Some EmptyString)) =
    "general fitness improvement" /\
  activity_phrase male_example = "moderately active".
Proof.
  split; [| split].
  - apply (motivation_prompt_phrases
             (mkFitnessProfile 30 70 175 "male" MODERATELY_ACTIVE
                (Some "Build muscle and lose fat"))
             ); [reflexivity | discriminate].
  - apply (motivation_prompt_phrases
             (mkFitnessProfile 30 70 175 "male" MODERATELY_ACTIVE
                (Some EmptyString))).
    right. reflexivity.
  - reflexivity.
Defined.

(** ** The BMR calculator of the front end *)

(** Within the ranges of the widgets the BMR calculator of the front end
    always has a result to show: the profile is built and [calculate_bmr]
    returns the Mifflin-St Jeor value for it, so the error box of that
    branch is never reached. *)
Theorem ui_bmr_never_fails (age : Z) (weight height : float)
    (gender activity_display : string) :
  widget_ranges age weight height = true ->
  In activity_display activity_options ->
  exists p,
    ui_bmr_profile age weight height gender activity_display = inl p /\
    calculate_bmr p = Ok (mifflin_st_jeor p).
Proof.
  intros Hr Hin.
  destruct (activity_option_level _ Hin) as (value & level & Hget & Hof & _).
  unfold widget_ranges in Hr. rewrite !andb_true_iff in Hr.
  destruct Hr as [[[[[Ha1 Ha2] Hw1] _] Hh1] _].
  pose proof (leb_positive _ _ Prim2SF_30 Hw1) as Hw.
  pose proof (leb_positive _ _ Prim2SF_100 Hh1) as Hh.
  assert (Hv : (13 <=? age) && (age <=? 120) && (0 <? weight)%float &&
               (0 <? height)%float = true)
    by (rewrite Ha1, Ha2, Hw, Hh; reflexivity).
  exists (mkFitnessProfile age weight height gender level None).
  split.
  - unfold ui_bmr_profile. rewrite Hget, Hof. unfold FitnessProfile_new.
    apply FitnessProfile_errors_nil in Hv. rewrite Hv. reflexivity.
  - apply calculate_bmr_eq. simpl.
    apply Z.leb_le in Ha1. apply Z.leb_le in Ha2. lia.
Qed.

Lemma ui_bmr_never_fails_witness :
  exists p,
    ui_bmr_profile 30 70 175 "male"
      "Moderately Active (moderate exercise 3-5 days/week)" = inl p /\
    calculate_bmr p = Ok (mifflin_st_jeor p).
Proof.
  apply (ui_bmr_never_fails 30 70 175 "male"
           "Moderately Active (moderate exercise 3-5 days/week)").
  - vm_compute. reflexivity.
  - simpl. auto.
Defined.
